(** * InvoiceAI backend: text recognition, completion client and orchestrator

    A shallow embedding of [backend/ocr.py], [backend/ai_client.py],
    [backend/models.py], [backend/config.py] and [backend/main.py], and the
    properties of the extraction pipeline proved over it.

    Python [str] values are sequences of Unicode code points; they are
    modelled as [list N].  The file system and the calls made to the
    recognition engine and to the completion endpoint are an explicit world
    threaded through a small state-and-exception monad. *)

From stdpp Require Import gmap list strings.
From Stdlib Require Import NArith Lia Ascii DecimalString.

(** ** Python strings *)

Abbreviation str := (list N).

(** A literal of the source, as code points (the literals used are ASCII). *)
Definition py (s : string) : str :=
  N_of_ascii <$> String.list_ascii_of_string s.

Definition SP : N := 32%N.
Definition NL : N := 10%N.

(** [Py_UNICODE_ISSPACE]: the predicate behind [str.strip()], [str.isspace()]
    and the class [\s] of [re] on [str] patterns. *)
Definition isspace (c : N) : bool :=
  (((9 <=? c) && (c <=? 13)) || ((28 <=? c) && (c <=? 32))
   || (c =? 133) || (c =? 160) || (c =? 5760)
   || ((8192 <=? c) && (c <=? 8202))
   || (c =? 8232) || (c =? 8233) || (c =? 8239) || (c =? 8287)
   || (c =? 12288))%N.

(** [str(n)] for a non-negative [int]. *)
Definition str_of_N (n : N) : str :=
  py (NilZero.string_of_uint (N.to_uint n)).

(** [sep.join(parts)] *)
Fixpoint join (sep : str) (parts : list str) : str :=
  match parts with
  | [] => []
  | [p] => p
  | p :: ps => p ++ sep ++ join sep ps
  end.

(** [text.split(sep)] for a one-character separator: never an empty list. *)
Fixpoint split (sep : N) (text : str) : list str :=
  match text with
  | [] => [[]]
  | c :: rest =>
      if (c =? sep)%N then [] :: split sep rest
      else match split sep rest with
           | [] => [[c]]
           | piece :: pieces => (c :: piece) :: pieces
           end
  end.

Fixpoint lstrip (text : str) : str :=
  match text with
  | [] => []
  | c :: rest => if isspace c then lstrip rest else text
  end.

Definition rstrip (text : str) : str := reverse (lstrip (reverse text)).

(** [text.strip()] *)
Definition strip (text : str) : str := rstrip (lstrip text).

(** Truthiness of a [str]: [if line]. *)
Definition truthy (s : str) : bool :=
  match s with [] => false | _ => true end.

(** [needle in haystack] on [str]. *)
Fixpoint starts_with (needle hay : str) : bool :=
  match needle, hay with
  | [], _ => true
  | _ :: _, [] => false
  | a :: n', b :: h' => (a =? b)%N && starts_with n' h'
  end.

Fixpoint str_in (needle hay : str) : bool :=
  starts_with needle hay
  || match hay with [] => false | _ :: h' => str_in needle h' end.

(** The specification-side notion used by the claims: [s] occurs in [msg]. *)
Definition contains (msg s : str) : Prop :=
  ∃ before after, msg = before ++ s ++ after.

(** ** ocr.py: [OCRProcessor.clean_text] *)

Module Clean.

(** [re.sub(r'\s+', ' ', text)]: a left-to-right scan in which every maximal
    run of whitespace is replaced by one space; [in_run] records that the
    previous character belonged to the run being replaced. *)
Fixpoint re_sub_spaces (in_run : bool) (text : str) : str :=
  match text with
  | [] => []
  | c :: rest =>
      if isspace c then
        if in_run then re_sub_spaces true rest
        else SP :: re_sub_spaces true rest
      else c :: re_sub_spaces false rest
  end.

Definition clean_text (text : str) : str :=
  (* Remove excessive whitespace *)
  let text := re_sub_spaces false text in
  (* Remove leading/trailing whitespace on each line *)
  let lines := strip <$> split NL text in
  (* Remove empty lines *)
  let lines := List.filter truthy lines in
  (* Rejoin with single newlines *)
  let cleaned := join [NL] lines in
  strip cleaned.

End Clean.

(** ** Exceptions

    The exception classes the code raises or dispatches on.  Every class
    below derives from Python's [Exception]; [except Exception] catches all
    of them. *)

Inductive exn :=
| HTTPException (status_code : N) (detail : str)  (* fastapi.HTTPException *)
| Exception (msg : str)                           (* raise Exception(msg) *)
| ValueError (msg : str)
| HTTPStatusError (status_code : N) (text : str) (msg : str)
    (* httpx: e.response.status_code, e.response.text, str(e) *)
| JSONDecodeError (msg : str)                     (* json.JSONDecodeError *)
| LibraryError (msg : str).
    (* any other class raised by a library or by the interpreter *)

(** [str(e)] *)
Definition str_exn (e : exn) : str :=
  match e with
  | HTTPException status_code detail =>
      str_of_N status_code ++ py ": " ++ detail
  | Exception msg | ValueError msg | HTTPStatusError _ _ msg
  | JSONDecodeError msg | LibraryError msg => msg
  end.

Inductive outcome (A : Type) :=
| Return (a : A)
| Raise (e : exn).
Arguments Return {A} a.
Arguments Raise {A} e.

(** ** config.py *)

Record Settings := { CEREBRAS_API_KEY : str }.

Definition CEREBRAS_API_BASE_URL : str := py "https://api.cerebras.ai/v1".
Definition CEREBRAS_MODEL : str := py "llama3.1-70b".
Definition UPLOAD_DIR : str := py "uploads".
Definition MAX_FILE_SIZE : N := (10 * 1024 * 1024)%N.
Definition ALLOWED_EXTENSIONS : list str :=
  [py ".pdf"; py ".jpg"; py ".jpeg"; py ".png"].

(** [Settings.validate]: [(is_valid, error_message)] *)
Definition validate (settings : Settings) : bool * str :=
  if negb (truthy (CEREBRAS_API_KEY settings))
  then (false, py "CEREBRAS_API_KEY not found in environment variables")
  else (true, []).

(** ** The world: files on disk and the calls made to the outside *)

Record request := {
  url : str;
  authorization : str;
  model : str;
  system_content : str;
  user_content : str;
}.

Inductive event :=
| EvOpen (path : str)               (* open(path, "wb") *)
| EvWrite (path : str) (size : N)   (* f.write(content) *)
| EvUnlink (path : str)             (* Path(path).unlink(...) *)
| EvSave (path : str)               (* image.save(path, 'PNG') *)
| EvRasterize (path : str)          (* convert_from_path(path) *)
| EvReadtext (path : str)           (* reader.readtext(path) *)
| EvPost (r : request).             (* client.post(...) *)

Record world := {
  disk : gset str;      (* the paths that exist *)
  trace : list event;   (* what has been done so far, oldest first *)
}.

(** A request starts with nothing done yet. *)
Definition start (files : gset str) : world := {| disk := files; trace := [] |}.

(** The requests sent to the completion endpoint, in order. *)
Definition posts (t : list event) : list request :=
  omap (λ ev, match ev with EvPost r => Some r | _ => None end) t.

(** State threaded through, with exceptions. *)
Definition M (A : Type) : Type := world → outcome A * world.

#[global] Instance M_ret : MRet M := λ A a w, (Return a, w).
#[global] Instance M_bind : MBind M := λ A B k m w,
  match m w with
  | (Return a, w') => k a w'
  | (Raise e, w') => (Raise e, w')
  end.

Definition raise {A} (e : exn) : M A := λ w, (Raise e, w).

(** [try: body  except Exception as e: handler e] *)
Definition try_except {A} (body : M A) (handler : exn → M A) : M A := λ w,
  match body w with
  | (Return a, w') => (Return a, w')
  | (Raise e, w') => handler e w'
  end.

(** [try: body  finally: cleanup] *)
Definition try_finally {A} (body : M A) (cleanup : M unit) : M A := λ w,
  let '(r, w') := body w in
  match cleanup w' with
  | (Return _, w'') => (r, w'')
  | (Raise e, w'') => (Raise e, w'')
  end.

Definition emit (ev : event) : M unit := λ w,
  (Return tt, {| disk := disk w; trace := trace w ++ [ev] |}).

Definition create (path : str) : M unit := λ w,
  (Return tt, {| disk := {[path]} ∪ disk w; trace := trace w |}).

Definition remove (path : str) : M unit := λ w,
  (Return tt, {| disk := disk w ∖ {[path]}; trace := trace w |}).

(** [path.exists()] *)
Definition path_exists (path : str) : M bool := λ w,
  (Return (bool_decide (path ∈ disk w)), w).

(** [open(path, "wb")]: the file exists from here on. *)
Definition open_wb (path : str) : M unit :=
  emit (EvOpen path);; create path.

(** [f.write(content)] *)
Definition write (path : str) (content : list N) : M unit :=
  emit (EvWrite path (N.of_nat (length content))).

(** [image.save(path, 'PNG')] *)
Definition image_save (path : str) : M unit :=
  emit (EvSave path);; create path.

(** [Path(path).unlink(missing_ok=True)] *)
Definition unlink_missing_ok (path : str) : M unit :=
  emit (EvUnlink path);; remove path.

#[global] Instance outcome_ret : MRet outcome := λ A a, Return a.
#[global] Instance outcome_bind : MBind outcome := λ A B k r,
  match r with
  | Return a => k a
  | Raise e => Raise e
  end.

(** A computation that does not touch the world. *)
Definition lift {A} (r : outcome A) : M A := λ w, (r, w).

(** ** models.py *)

Section Models.
Context {float : Type}.

Record LineItem := {
  description : option str;
  quantity : option float;
  unit_price : option float;
  line_total : option float;
}.

Record InvoiceData := {
  (* Supplier Information *)
  supplier_name : option str;
  supplier_abn_or_vat : option str;
  supplier_address : option str;
  (* Invoice Details *)
  invoice_number : option str;
  issue_date : option str;
  due_date : option str;
  (* Financial Information *)
  currency : option str;
  subtotal : option float;
  tax_amount : option float;
  tax_rate : option float;
  total_amount : option float;
  (* Line Items *)
  line_items : list LineItem;
  (* Additional Information *)
  notes : option str;
}.

Record APIResponse := {
  success : bool;
  data : option InvoiceData;
  error : option str;
  ocr_text : option str;
}.
End Models.
Arguments LineItem : clear implicits.
Arguments InvoiceData : clear implicits.
Arguments APIResponse : clear implicits.

(** ** JSON values, as [json.loads] and [response.json()] produce them.
    An object is the list of its items; a parsed object has no key twice. *)

#[local] Unset Elimination Schemes.
Inductive json {num : Type} :=
| JNull
| JBool (b : bool)
| JNum (n : num)
| JStr (s : str)
| JArr (items : list json)
| JObj (items : list (str * json)).
#[local] Set Elimination Schemes.
Arguments json : clear implicits.

Inductive key :=
| KStr (s : str)
| KInt (i : N).

(** The ways an operation of the interpreter or of a library fails whose
    message the repository does not word itself. *)
Inductive fault {num : Type} :=
| FileNotFound (path : str)                   (* Path.unlink() on a missing file *)
| BadStatus (status_code : N) (text : str)    (* httpx: text of HTTPStatusError *)
| NotIterable (v : json num)                  (* x in v *)
| BadIndex (v : json num) (k : key)           (* v[k]: KeyError, IndexError, TypeError *)
| NoLen (v : json num)                        (* len(v) *)
| NotText (v : json num)                      (* json.loads(v) on a non-string *)
| NotMapping (v : json num)                   (* keyword-argument unpacking of a non-dict *)
| Invalid (v : json num).                     (* pydantic.ValidationError *)
Arguments fault : clear implicits.

(** The answer of the completion endpoint to one request. *)
Record response {num : Type} := {
  status_code : N;
  text : str;                      (* response.text *)
  body_json : str + json num;      (* response.json(), or the decode error *)
}.
Arguments response : clear implicits.

(** What the outside answers during one request. *)
Record oracle {num : Type} := {
  uuid4 : str;                               (* str(uuid.uuid4()) *)
  set_order : list str;                      (* iteration order of ALLOWED_EXTENSIONS *)
  convert_from_path : str → str + nat;       (* pdf2image: the page images, or str(e) *)
  readtext : str → str + list str;           (* easyocr: result[1] of each result, or str(e) *)
  post : request → str + response num;       (* httpx: the response, or str(e) *)
}.
Arguments oracle : clear implicits.

(** ** The pipeline *)

Section Pipeline.
Context {num float : Type}.

(** Library functions the code calls and whose results it only passes on. *)
Variable suffix_lower : str → str.
  (* Path(p).suffix.lower() *)
Variable json_loads : str → str + json num.
  (* json.loads(s) on a str: the value, or str(e) of the JSONDecodeError *)
Variable validate_str : json num → option str.
  (* pydantic: a non-null value given to a [str] field *)
Variable validate_float : json num → option float.
  (* pydantic: a non-null value given to a [float] field *)
Variable fault_text : fault num → str.
  (* str(e) of the exception raised for a fault *)

Definition fail {A} (f : fault num) : outcome A :=
  Raise (LibraryError (fault_text f)).

(** [Path(path).unlink()] *)
Definition unlink (path : str) : M unit :=
  emit (EvUnlink path);;
  present ← path_exists path;
  if present : bool then remove path else lift (fail (FileNotFound path)).

(** *** ocr.py *)

Definition reader_readtext (O : oracle num) (image_path : str) : M (list str) :=
  emit (EvReadtext image_path);;
  match readtext O image_path with
  | inr results => mret results
  | inl msg => raise (LibraryError msg)
  end.

Definition extract_text_from_image (O : oracle num) (image_path : str) : M str :=
  try_except
    ((* Read text from image *)
     text_lines ← reader_readtext O image_path;
     (* Join lines with newlines *)
     let full_text := join [NL] text_lines in
     mret full_text)
    (λ e, raise (Exception (py "Failed to extract text from image: " ++ str_exn e))).

Definition temp_page (i : nat) : str :=
  py "temp_page_" ++ str_of_N (N.of_nat i) ++ py ".png".

(** The loop [for i, image in enumerate(images)], on the remaining indices. *)
Fixpoint pdf_pages (O : oracle num) (pages : list nat) (all_text : list str)
  : M (list str) :=
  match pages with
  | [] => mret all_text
  | i :: rest =>
      (* Save image temporarily *)
      let temp_image_path := temp_page i in
      image_save temp_image_path;;
      (* Extract text from this page *)
      page_text ← extract_text_from_image O temp_image_path;
      let all_text := all_text ++ [page_text] in
      (* Clean up temporary image *)
      unlink_missing_ok temp_image_path;;
      pdf_pages O rest all_text
  end.

Definition PAGE_BREAK : str := [NL; NL] ++ py "--- PAGE BREAK ---" ++ [NL; NL].

Definition extract_text_from_pdf (O : oracle num) (pdf_path : str) : M str :=
  try_except
    ((* Convert PDF to images (one per page) *)
     emit (EvRasterize pdf_path);;
     images ← match convert_from_path O pdf_path with
              | inr n => mret n
              | inl msg => raise (LibraryError msg)
              end;
     (* Process each page *)
     all_text ← pdf_pages O (seq 0 images) [];
     (* Combine all pages *)
     let full_text := join PAGE_BREAK all_text in
     mret full_text)
    (λ e, raise (Exception (py "Failed to extract text from PDF: " ++ str_exn e))).

(** The first half of [process_file]: the raw text, by file type. *)
Definition extract_raw_text (O : oracle num) (file_path : str) : M str :=
  let file_extension := suffix_lower file_path in
  (* Route to appropriate extraction method *)
  if bool_decide (file_extension = py ".pdf") then
    extract_text_from_pdf O file_path
  else if bool_decide (file_extension ∈ [py ".jpg"; py ".jpeg"; py ".png"]) then
    extract_text_from_image O file_path
  else raise (Exception (py "Unsupported file type: " ++ file_extension)).

Definition process_file (O : oracle num) (file_path : str) : M str :=
  raw_text ← extract_raw_text O file_path;
  (* Clean and normalize the text *)
  let cleaned_text := Clean.clean_text raw_text in
  mret cleaned_text.

(** *** ai_client.py *)

Record CerebrasClient := {
  api_key : str;
  base_url : str;
  model_name : str;
}.

(** [CerebrasClient.__init__] *)
Definition CerebrasClient_init (settings : Settings) : outcome CerebrasClient :=
  let self := {| api_key := CEREBRAS_API_KEY settings;
                 base_url := CEREBRAS_API_BASE_URL;
                 model_name := CEREBRAS_MODEL |} in
  if negb (truthy (api_key self))
  then Raise (ValueError (py "CEREBRAS_API_KEY is not set"))
  else Return self.

(** A literal in which ['] stands for the double quote of the source. *)
Definition pyq (s : string) : str :=
  (λ c, if (c =? 39)%N then 34%N else c) <$> py s.

(** The multiplication sign of the source text, U+00D7. *)
Definition TIMES : str := [215%N].

Definition _build_system_prompt : str :=
  pyq "You are an expert invoice analysis AI. Your task is to extract structured information from invoice text that has been obtained via OCR.

CRITICAL REQUIREMENTS:
1. You MUST perform ALL calculations yourself (subtotals, tax amounts, totals, line item totals)
2. Verify that all numbers are mathematically correct and consistent
3. If a field is not present in the invoice, use null (do not guess or hallucinate data)
4. Return ONLY valid JSON with no additional text or explanation
5. Support various currencies and tax formats (GST, VAT, Sales Tax, etc.)

FIELD DESCRIPTIONS:
- supplier_name: The name of the company/vendor issuing the invoice
- supplier_abn_or_vat: Tax identification number (ABN, VAT, EIN, etc.)
- supplier_address: Full address of the supplier
- invoice_number: Unique invoice identifier
- issue_date: Date when invoice was issued (format: YYYY-MM-DD if possible)
- due_date: Payment due date (format: YYYY-MM-DD if possible)
- currency: Currency code (USD, EUR, AUD, GBP, etc.)
- subtotal: Total before tax (YOU must calculate this)
- tax_amount: Total tax amount (YOU must calculate this)
- tax_rate: Tax percentage rate
- total_amount: Final amount due (YOU must calculate: subtotal + tax_amount)
- line_items: Array of items with:
  - description: Item name/description
  - quantity: Number of units (if 'Supplied' is empty, use null)
  - unit_price: Price per unit
  - line_total: Total for this line (YOU must calculate: quantity " ++ TIMES ++ py " unit_price)
- notes: Any additional terms, conditions, or notes

CALCULATION RULES:
- line_total = quantity " ++ TIMES ++ py " unit_price
- subtotal = sum of all line_totals
- tax_amount = subtotal " ++ TIMES ++ py " (tax_rate / 100)
- total_amount = subtotal + tax_amount

Ensure all calculations are accurate and the numbers reconcile correctly.".

Definition _build_user_prompt (ocr_text : str) : str :=
  py "Extract all invoice information from the following OCR text and return it as a JSON object.

OCR TEXT:
" ++ ocr_text ++ pyq "

Return ONLY the JSON object with this exact structure (use null for missing fields):
{
  'supplier_name': 'string or null',
  'supplier_abn_or_vat': 'string or null',
  'supplier_address': 'string or null',
  'invoice_number': 'string or null',
  'issue_date': 'string or null',
  'due_date': 'string or null',
  'currency': 'string',
  'subtotal': number or null,
  'tax_amount': number or null,
  'tax_rate': number or null,
  'total_amount': number or null,
  'line_items': [
    {
      'description': 'string or null',
      'quantity': number or null,
      'unit_price': number or null,
      'line_total': number or null
    }
  ],
  'notes': 'string or null'
}

Remember: Perform ALL calculations yourself and ensure mathematical consistency.".

(** **** Python operations on parsed JSON *)

(** [d.get(k)] on the items of a dict *)
Fixpoint dict_get (items : list (str * json num)) (k : str) : option (json num) :=
  match items with
  | [] => None
  | (k', v) :: rest => if bool_decide (k' = k) then Some v else dict_get rest k
  end.

(** [k in v] *)
Definition py_in (k : str) (v : json num) : outcome bool :=
  match v with
  | JObj items => Return (bool_decide (is_Some (dict_get items k)))
  | JArr items =>
      Return (existsb (λ x, match x with
                            | JStr s => bool_decide (s = k)
                            | _ => false
                            end) items)
  | JStr s => Return (str_in k s)
  | _ => fail (NotIterable v)
  end.

(** [v[k]] *)
Definition py_getitem (v : json num) (k : key) : outcome (json num) :=
  match v, k with
  | JObj items, KStr s =>
      match dict_get items s with
      | Some x => Return x
      | None => fail (BadIndex v k)
      end
  | JArr items, KInt i =>
      match items !! N.to_nat i with
      | Some x => Return x
      | None => fail (BadIndex v k)
      end
  | JStr s, KInt i =>
      match s !! N.to_nat i with
      | Some c => Return (JStr [c])
      | None => fail (BadIndex v k)
      end
  | _, _ => fail (BadIndex v k)
  end.

(** [len(v)] *)
Definition py_len (v : json num) : outcome nat :=
  match v with
  | JObj items => Return (length items)
  | JArr items => Return (length items)
  | JStr s => Return (length s)
  | _ => fail (NoLen v)
  end.

(** [json.loads(content)] *)
Definition loads (content : json num) : outcome (json num) :=
  match content with
  | JStr s =>
      match json_loads s with
      | inr v => Return v
      | inl msg => Raise (JSONDecodeError msg)
      end
  | _ => fail (NotText content)
  end.

(** **** Validation into the models (pydantic) *)

(** A field [Optional[T] = Field(default)]: the default when the key is
    omitted, [None] for [null], the converted value otherwise; the outer
    [None] is a validation error. *)
Definition optional {T} (convert : json num → option T) (default : option T)
    (d : list (str * json num)) (name : string) : option (option T) :=
  match dict_get d (py name) with
  | None => Some default
  | Some JNull => Some None
  | Some v => Some <$> convert v
  end.

Definition LineItem_validate (v : json num) : option (LineItem float) :=
  match v with
  | JObj d =>
      description ← optional validate_str None d "description";
      quantity ← optional validate_float None d "quantity";
      unit_price ← optional validate_float None d "unit_price";
      line_total ← optional validate_float None d "line_total";
      Some {| description := description; quantity := quantity;
              unit_price := unit_price; line_total := line_total |}
  | _ => None
  end.

(** [line_items: List[LineItem] = Field(default_factory=list)] *)
Definition line_items_validate (d : list (str * json num))
  : option (list (LineItem float)) :=
  match dict_get d (py "line_items") with
  | None => Some []
  | Some (JArr items) => mapM LineItem_validate items
  | Some _ => None
  end.

Definition InvoiceData_validate (d : list (str * json num))
  : option (InvoiceData float) :=
  supplier_name ← optional validate_str None d "supplier_name";
  supplier_abn_or_vat ← optional validate_str None d "supplier_abn_or_vat";
  supplier_address ← optional validate_str None d "supplier_address";
  invoice_number ← optional validate_str None d "invoice_number";
  issue_date ← optional validate_str None d "issue_date";
  due_date ← optional validate_str None d "due_date";
  currency ← optional validate_str (Some (py "USD")) d "currency";
  subtotal ← optional validate_float None d "subtotal";
  tax_amount ← optional validate_float None d "tax_amount";
  tax_rate ← optional validate_float None d "tax_rate";
  total_amount ← optional validate_float None d "total_amount";
  line_items ← line_items_validate d;
  notes ← optional validate_str None d "notes";
  Some {| supplier_name := supplier_name;
          supplier_abn_or_vat := supplier_abn_or_vat;
          supplier_address := supplier_address;
          invoice_number := invoice_number;
          issue_date := issue_date;
          due_date := due_date;
          currency := currency;
          subtotal := subtotal;
          tax_amount := tax_amount;
          tax_rate := tax_rate;
          total_amount := total_amount;
          line_items := line_items;
          notes := notes |}.

(** [InvoiceData( **invoice_dict)] *)
Definition InvoiceData_init (invoice_dict : json num) : outcome (InvoiceData float) :=
  match invoice_dict with
  | JObj d =>
      match InvoiceData_validate d with
      | Some invoice_data => Return invoice_data
      | None => fail (Invalid invoice_dict)
      end
  | _ => fail (NotMapping invoice_dict)
  end.

(** **** The request *)

(** [response.raise_for_status()]: raises unless the status is 2xx. *)
Definition raise_for_status (r : response num) : outcome unit :=
  if ((200 <=? status_code r) && (status_code r <=? 299))%N then Return tt
  else Raise (HTTPStatusError (status_code r) (text r)
                (fault_text (BadStatus (status_code r) (text r)))).

(** [response.json()] *)
Definition response_json (r : response num) : outcome (json num) :=
  match body_json r with
  | inr v => Return v
  | inl msg => Raise (JSONDecodeError msg)
  end.

(** [await client.post(url, headers=headers, json=payload)]; the payload also
    carries the constants [temperature = 0.1], [max_tokens = 2000] and
    [response_format = {"type": "json_object"}]. *)
Definition client_post (O : oracle num) (r : request) : M (response num) :=
  emit (EvPost r);;
  match post O r with
  | inr resp => mret resp
  | inl msg => raise (LibraryError msg)
  end.

(** ["choices" not in result or len(result["choices"]) == 0] *)
Definition no_choices (result : json num) : outcome bool :=
  present ← py_in (py "choices") result;
  if negb present then Return true
  else
    choices ← py_getitem result (KStr (py "choices"));
    n ← py_len choices;
    Return (bool_decide (n = 0)).

(** [result["choices"][0]["message"]["content"]] *)
Definition message_content (result : json num) : outcome (json num) :=
  choices ← py_getitem result (KStr (py "choices"));
  first ← py_getitem choices (KInt 0);
  message ← py_getitem first (KStr (py "message"));
  py_getitem message (KStr (py "content")).

(** The url, headers and payload of the request sent for [ocr_text]. *)
Definition completion_request (self : CerebrasClient) (ocr_text : str) : request :=
  let system_prompt := _build_system_prompt in
  let user_prompt := _build_user_prompt ocr_text in
  {| url := base_url self ++ py "/chat/completions";
     authorization := py "Bearer " ++ api_key self;
     model := model_name self;
     system_content := system_prompt;
     user_content := user_prompt |}.

Definition extract_invoice_data (self : CerebrasClient) (O : oracle num)
    (ocr_text : str) : M (InvoiceData float) :=
  (* Prepare API request *)
  let r := completion_request self ocr_text in
  try_except
    ((* Make API request *)
     response ← client_post O r;
     lift (raise_for_status response);;
     (* Parse response *)
     result ← lift (response_json response);
     (* Extract the message content *)
     missing ← lift (no_choices result);
     if missing : bool then
       raise (Exception (py "Invalid response from Cerebras API: no choices"))
     else
       content ← lift (message_content result);
       (* Parse JSON content *)
       invoice_dict ← lift (loads content);
       (* Validate and convert to InvoiceData model *)
       invoice_data ← lift (InvoiceData_init invoice_dict);
       mret invoice_data)
    (λ e, match e with
          | HTTPStatusError status_code error_detail _ =>
              raise (Exception (py "Cerebras API error: " ++ str_of_N status_code
                                ++ py " - " ++ error_detail))
          | JSONDecodeError msg =>
              raise (Exception (py "Failed to parse JSON response from Cerebras: "
                                ++ msg))
          | _ =>
              raise (Exception (py "Failed to extract invoice data: " ++ str_exn e))
          end).

(** *** main.py *)

Inductive OCRProcessor := EasyOCRReader.

(** [OCRProcessor.__init__]: builds the recognition engine. *)
Definition OCRProcessor_init : outcome OCRProcessor := Return EasyOCRReader.

(** The two process-wide handles. *)
Record App := {
  ocr_processor : OCRProcessor;
  ai_client : CerebrasClient;
}.

(** [lifespan], up to its [yield]: what runs when the service starts. *)
Definition lifespan (settings : Settings) : outcome App :=
  ocr ← OCRProcessor_init;
  ai ← CerebrasClient_init settings;
  Return {| ocr_processor := ocr; ai_client := ai |}.

Record Health := {
  status : str;
  api_configured : bool;
  health_error : option str;
}.

Definition health_check (settings : Settings) : Health :=
  let '(is_valid, error_msg) := validate settings in
  {| status := if is_valid then py "healthy" else py "degraded";
     api_configured := is_valid;
     health_error := if negb is_valid then Some error_msg else None |}.

Record UploadFile := {
  filename : str;
  content : list N;   (* the bytes of the payload *)
}.

(** [ocr_text[:500] + "..." if len(ocr_text) > 500 else ocr_text] *)
Definition preview (ocr_text : str) : str :=
  if bool_decide (500 < length ocr_text) then take 500 ocr_text ++ py "..."
  else ocr_text.

(** [len(content) > settings.MAX_FILE_SIZE] *)
Definition too_large (file : UploadFile) : bool :=
  bool_decide (MAX_FILE_SIZE < N.of_nat (length (content file)))%N.

(** [not ocr_text or len(ocr_text.strip()) < 10] *)
Definition guard (ocr_text : str) : bool :=
  negb (truthy ocr_text) || bool_decide (length (strip ocr_text) < 10).

(** [str(settings.UPLOAD_DIR / unique_filename)] *)
Definition upload_path (O : oracle num) (file_ext : str) : str :=
  let unique_filename := uuid4 O ++ file_ext in
  UPLOAD_DIR ++ py "/" ++ unique_filename.

(** The operation [POST /api/invoice/extract].  It returns the envelope, or
    raises the [HTTPException] that fastapi turns into an HTTP error.  The
    [print] calls of the source write to the console only and are left out. *)
Definition extract_invoice (settings : Settings) (ai_client : CerebrasClient)
    (O : oracle num) (file : UploadFile) : M (APIResponse float) :=
  try_except
    ((* Validate file extension *)
     let file_ext := suffix_lower (filename file) in
     if negb (bool_decide (file_ext ∈ ALLOWED_EXTENSIONS)) then
       raise (HTTPException 400
                (py "Unsupported file type: " ++ file_ext
                 ++ py ". Allowed types: " ++ join (py ", ") (set_order O)))
     else
       (* Validate Cerebras API key *)
       let '(is_valid, error_msg) := validate settings in
       if negb is_valid then raise (HTTPException 500 error_msg)
       else
         (* Generate unique filename *)
         let file_path := upload_path O file_ext in
         try_finally
           ((* Save uploaded file *)
            open_wb file_path;;
            ((* Check file size *)
             if too_large file then
               raise (HTTPException 400 (py "File too large. Maximum size: 10.0MB"))
             else write file_path (content file));;
            (* Step 1: Extract text using OCR *)
            ocr_text ← process_file O file_path;
            if guard ocr_text then
              raise (Exception (py "OCR failed to extract meaningful text from the file"))
            else
              (* Step 2: Send to Cerebras for analysis *)
              invoice_data ← extract_invoice_data ai_client O ocr_text;
              (* Return success response *)
              mret {| success := true;
                      data := Some invoice_data;
                      error := None;
                      ocr_text := Some (preview ocr_text) |})
           ((* Clean up uploaded file *)
            present ← path_exists file_path;
            if present : bool then unlink file_path else mret tt))
    (λ e, match e with
          | HTTPException _ _ => raise e
          | _ =>
              let error_message := str_exn e in
              mret {| success := false;
                      data := None;
                      error := Some error_message;
                      ocr_text := None |}
          end).

End Pipeline.

(** ** Vocabulary of the statements and proofs *)

(** A text that does not start with whitespace. *)
Definition starts_clean (t : str) : Prop :=
  match t with [] => True | c :: _ => isspace c = false end.

(** The shape [re_sub_spaces] produces: whitespace occurs only as single
    spaces; [prev] says that a space stands just before the text. *)
Fixpoint collapsed (prev : bool) (t : str) : Prop :=
  match t with
  | [] => True
  | c :: rest =>
      if isspace c then c = SP ∧ prev = false ∧ collapsed true rest
      else collapsed false rest
  end.

(** The world once [content] has been written to the new file [p]. *)
Definition saved (p : str) (content : list N) (w : world) : world :=
  {| disk := {[p]} ∪ disk w;
     trace := (trace w ++ [EvOpen p]) ++ [EvWrite p (N.of_nat (length content))] |}.

(** What the [finally] block of [extract_invoice] leaves behind. *)
Definition closed (p : str) (w : world) : world :=
  if bool_decide (p ∈ disk w)
  then {| disk := disk w ∖ {[p]}; trace := trace w ++ [EvUnlink p] |}
  else w.

(** The characters of a text that are not whitespace, in order. *)
Definition visible (t : str) : str := List.filter (λ c, negb (isspace c)) t.

(** The names of the fields of [InvoiceData]. *)
Definition InvoiceData_fields : list string :=
  ["supplier_name"; "supplier_abn_or_vat"; "supplier_address";
   "invoice_number"; "issue_date"; "due_date"; "currency"; "subtotal";
   "tax_amount"; "tax_rate"; "total_amount"; "line_items"; "notes"].

Section Envelopes.
Context {float : Type}.

(** The envelope [APIResponse(success=False, error=msg)]. *)
Definition failure (msg : str) : APIResponse float :=
  {| success := false; data := None; error := Some msg; ocr_text := None |}.

(** The two outer handlers of [extract_invoice], applied to what its body
    raises or returns. *)
Definition respond (r : outcome (APIResponse float)) : outcome (APIResponse float) :=
  match r with
  | Return a => Return a
  | Raise (HTTPException c d) => Raise (HTTPException c d)
  | Raise e => Return (failure (str_exn e))
  end.

(** The record pydantic builds from an object without any field. *)
Definition defaults : InvoiceData float :=
  {| supplier_name := None; supplier_abn_or_vat := None;
     supplier_address := None; invoice_number := None; issue_date := None;
     due_date := None; currency := Some (py "USD"); subtotal := None;
     tax_amount := None; tax_rate := None; total_amount := None;
     line_items := []; notes := None |}.

End Envelopes.

(** ** Concrete libraries and outside answers, for the examples *)

Module Demo.

(** The text from the last dot on: [Path(p).suffix.lower()] for the
    lower-case names [name.ext] and [dir/name.ext] used below. *)
Fixpoint last_dot (p : str) : option str :=
  match p with
  | [] => None
  | c :: rest =>
      match last_dot rest with
      | Some s => Some s
      | None => if (c =? 46)%N then Some p else None
      end
  end.

Definition suffix_lower (p : str) : str := default [] (last_dot p).

(** [json.loads] on the one document used below, the empty object. *)
Definition json_loads (s : str) : str + json N :=
  if bool_decide (s = py "{}") then inr (JObj [])
  else inl (py "Expecting value: line 1 column 1 (char 0)").

Definition validate_str (v : json N) : option str :=
  match v with JStr s => Some s | _ => None end.

Definition validate_float (v : json N) : option N :=
  match v with JNum n => Some n | _ => None end.

Definition fault_text (f : fault N) : str := py "fault".

Definition settings : Settings := {| CEREBRAS_API_KEY := py "csk-demo" |}.

Definition client : CerebrasClient :=
  {| api_key := py "csk-demo";
     base_url := CEREBRAS_API_BASE_URL;
     model_name := CEREBRAS_MODEL |}.

(** A completion whose message content is [content]. *)
Definition completion (content : str) : json N :=
  JObj [(py "choices",
         JArr [JObj [(py "message", JObj [(py "content", JStr content)])]])].

(** An engine that reads two fragments from any image, one page per PDF, and
    an endpoint that answers [resp]. *)
Definition answering (resp : str + response N) : oracle N :=
  {| uuid4 := py "0b0e4c3a";
     set_order := ALLOWED_EXTENSIONS;
     convert_from_path := λ _, inr 1;
     readtext := λ _, inr [py "INVOICE 123"; py "Total due 110"];
     post := λ _, resp |}.

Definition ok_empty_object : oracle N :=
  answering (inr {| status_code := 200; text := [];
                    body_json := inr (completion (py "{}")) |}).

Definition service_unavailable : oracle N :=
  answering (inr {| status_code := 503; text := py "upstream down";
                    body_json := inl (py "Expecting value") |}).

(** An engine that reads almost nothing. *)
Definition blank_page : oracle N :=
  {| uuid4 := py "0b0e4c3a";
     set_order := ALLOWED_EXTENSIONS;
     convert_from_path := λ _, inr 1;
     readtext := λ _, inr [py " 7 "];
     post := λ _, inl (py "unreachable") |}.

(** An engine that fails on the first page of a one-page PDF. *)
Definition unreadable_page : oracle N :=
  {| uuid4 := py "0b0e4c3a";
     set_order := ALLOWED_EXTENSIONS;
     convert_from_path := λ _, inr 1;
     readtext := λ _, inl (py "unreadable");
     post := λ _, inl (py "unreachable") |}.

Definition invoice_png : UploadFile :=
  {| filename := py "invoice.png"; content := [137; 80; 78; 71]%N |}.

(** A payload one byte over the limit. *)
Definition oversized_pdf : UploadFile :=
  {| filename := py "scan.pdf";
     content := replicate (N.to_nat (MAX_FILE_SIZE + 1)) 0%N |}.

Definition run (O : oracle N) (file : UploadFile) (files : gset str) :=
  extract_invoice suffix_lower json_loads validate_str validate_float fault_text
    (float := N) settings client O file (start files).

(** A two-page PDF: the engine reads one fragment from each page image. *)
Definition two_pages : oracle N :=
  {| uuid4 := py "0b0e4c3a";
     set_order := ALLOWED_EXTENSIONS;
     convert_from_path := λ _, inr 2;
     readtext := λ p, if bool_decide (p = temp_page 0)
                      then inr [py "INVOICE 123"]
                      else inr [py "Total due 110"];
     post := λ _, inl (py "unreachable") |}.

(** A PDF that cannot be rasterized. *)
Definition corrupt_pdf : oracle N :=
  {| uuid4 := py "0b0e4c3a";
     set_order := ALLOWED_EXTENSIONS;
     convert_from_path := λ _, inl (py "Unable to get page count.");
     readtext := λ _, inl (py "unreachable");
     post := λ _, inl (py "unreachable") |}.

(** Endpoints that answer without choices, with a content that is not JSON,
    not at all, and with a record whose line items are null. *)
Definition no_choices_answer : oracle N :=
  answering (inr {| status_code := 200; text := py "{}";
                    body_json := inr (JObj []) |}).



Definition null_line_items : oracle N :=
  answering (inr {| status_code := 200; text := [];
                    body_json :=
                      inr (completion (pyq "{'line_items': null}")) |}).

(** [json.loads] that also knows the document of [null_line_items]. *)
Definition json_loads_items (s : str) : str + json N :=
  if bool_decide (s = pyq "{'line_items': null}")
  then inr (JObj [(py "line_items", JNull)])
  else json_loads s.

Definition scan_pdf : UploadFile :=
  {| filename := py "scan.pdf"; content := [37; 80; 68; 70]%N |}.


End Demo.

(** * Properties *)

(** ** Text cleaning *)

Example str_of_N_404 : str_of_N 404 = py "404".
Proof. reflexivity. Qed.

Example temp_page_12 : temp_page 12 = py "temp_page_12.png".
Proof. reflexivity. Qed.

Example split_lines : split NL (py "a" ++ [NL; NL] ++ py "b") = [py "a"; []; py "b"].
Proof. reflexivity. Qed.

Example preview_long :
  preview (replicate 501 65%N) = replicate 500 65%N ++ py "...".
Proof. vm_compute. reflexivity. Qed.

Example preview_short : preview (py "INVOICE 123") = py "INVOICE 123".
Proof. vm_compute. reflexivity. Qed.

Example clean_text_two_lines :
  Clean.clean_text (py "  INVOICE   123 ") = py "INVOICE 123".
Proof. vm_compute. reflexivity. Qed.

Example clean_text_joins_lines :
  Clean.clean_text (py "INVOICE 123" ++ [NL; NL] ++ py " Total due 110")
  = py "INVOICE 123 Total due 110".
Proof. vm_compute. reflexivity. Qed.

Section CleanText.
Import Clean.

Lemma isspace_NL : isspace NL = true.
Proof. reflexivity. Qed.

(** [lstrip] removes a prefix. *)
Lemma lstrip_suffix t : ∃ dropped, t = dropped ++ lstrip t.
Proof.
  induction t as [|c t [dropped IH]]; [by exists []|]. simpl.
  destruct (isspace c).
  - exists (c :: dropped). simpl. by f_equal.
  - by exists [].
Qed.

(** [rstrip] removes a suffix. *)
Lemma rstrip_prefix t : ∃ dropped, t = rstrip t ++ dropped.
Proof.
  unfold rstrip. destruct (lstrip_suffix (reverse t)) as [dropped E].
  exists (reverse dropped). rewrite <- reverse_app, <- E.
  by rewrite reverse_involutive.
Qed.

Lemma lstrip_starts_clean t : starts_clean (lstrip t).
Proof.
  induction t as [|c t IH]; [done|]. simpl.
  destruct (isspace c) eqn:E; [done|]. simpl. done.
Qed.

Lemma lstrip_id t : starts_clean t → lstrip t = t.
Proof. destruct t as [|c t]; [done|]. simpl. by intros ->. Qed.

Lemma lstrip_idemp t : lstrip (lstrip t) = lstrip t.
Proof. apply lstrip_id, lstrip_starts_clean. Qed.

Lemma lstrip_snoc t c : isspace c = false → lstrip (t ++ [c]) = lstrip t ++ [c].
Proof.
  intros Hc. induction t as [|a t IH]; simpl.
  - by rewrite Hc.
  - by destruct (isspace a).
Qed.

Lemma rstrip_starts_clean t : starts_clean t → starts_clean (rstrip t).
Proof.
  destruct t as [|c t]; [done|]. simpl. intros Hc. unfold rstrip.
  rewrite reverse_cons, lstrip_snoc, reverse_snoc by done. done.
Qed.

Lemma rstrip_idemp t : rstrip (rstrip t) = rstrip t.
Proof. unfold rstrip. by rewrite reverse_involutive, lstrip_idemp. Qed.

Lemma strip_idemp t : strip (strip t) = strip t.
Proof.
  unfold strip.
  rewrite (lstrip_id (rstrip (lstrip t))).
  - apply rstrip_idemp.
  - apply rstrip_starts_clean, lstrip_starts_clean.
Qed.

(** Every character of the stripped text is one of the text. *)
Lemma strip_subseteq t : strip t ⊆ t.
Proof.
  unfold strip. intros c Hc.
  destruct (rstrip_prefix (lstrip t)) as [d1 E1].
  destruct (lstrip_suffix t) as [d2 E2].
  rewrite E2, E1. set_solver.
Qed.

Lemma re_sub_spaces_collapsed b t : collapsed b (re_sub_spaces b t).
Proof.
  revert b. induction t as [|c t IH]; intros b; [done|]. simpl.
  destruct (isspace c) eqn:Ec.
  - destruct b; [apply IH|].
    change (SP = SP ∧ false = false ∧ collapsed true (re_sub_spaces true t)).
    auto.
  - simpl. rewrite Ec. apply IH.
Qed.

Lemma re_sub_spaces_fixed b t : collapsed b t → re_sub_spaces b t = t.
Proof.
  revert b. induction t as [|c t IH]; intros b; [done|]. simpl.
  destruct (isspace c).
  - intros (-> & -> & H). f_equal. by apply IH.
  - intros H. f_equal. by apply IH.
Qed.

Lemma collapsed_weaken b t : collapsed b t → collapsed false t.
Proof.
  destruct t as [|c t]; [done|]. simpl.
  destruct (isspace c); [intros (? & ? & ?)|]; auto.
Qed.

Lemma collapsed_app_l b t u : collapsed b (t ++ u) → collapsed b t.
Proof.
  revert b. induction t as [|c t IH]; intros b; [done|]. simpl.
  destruct (isspace c); [intros (? & ? & ?); repeat split|]; eauto.
Qed.

Lemma collapsed_app_r b t u : collapsed b (t ++ u) → collapsed false u.
Proof.
  revert b. induction t as [|c t IH]; intros b; simpl.
  - apply collapsed_weaken.
  - destruct (isspace c); [intros (? & ? & ?)|]; eauto.
Qed.

Lemma strip_collapsed b t : collapsed b t → collapsed false (strip t).
Proof.
  intros H. unfold strip.
  destruct (lstrip_suffix t) as [d1 E1].
  destruct (rstrip_prefix (lstrip t)) as [d2 E2].
  rewrite E1 in H. apply collapsed_app_r in H.
  rewrite E2 in H. by apply collapsed_app_l in H.
Qed.

Lemma collapsed_no_newline b t : collapsed b t → NL ∉ t.
Proof.
  revert b. induction t as [|c t IH]; intros b; simpl; [set_solver|].
  destruct (isspace c) eqn:Ec.
  - intros (-> & _ & H). apply IH in H. rewrite not_elem_of_cons. done.
  - intros H. apply IH in H. rewrite not_elem_of_cons. split; [|done].
    intros <-. by rewrite isspace_NL in Ec.
Qed.

(** Without a separator in it, [split] returns the text as its one piece. *)
Lemma split_absent sep t : sep ∉ t → split sep t = [t].
Proof.
  induction t as [|c t IH]; [done|]. rewrite not_elem_of_cons. intros [Hc Ht].
  simpl. rewrite (IH Ht). destruct (N.eqb_spec c sep); [congruence|done].
Qed.

(** On one line the function strips the collapsed text. *)
Lemma clean_text_unfold t : clean_text t = strip (re_sub_spaces false t).
Proof.
  unfold clean_text.
  rewrite split_absent
    by (eapply collapsed_no_newline, re_sub_spaces_collapsed).
  simpl. destruct (strip (re_sub_spaces false t)) eqn:E; simpl.
  - done.
  - rewrite <- E. apply strip_idemp.
Qed.

(** C6: cleaning is idempotent: for every text [t], cleaning the cleaned
    text returns the cleaned text. *)
Theorem clean_text_idempotent t : clean_text (clean_text t) = clean_text t.
Proof.
  rewrite !clean_text_unfold.
  rewrite (re_sub_spaces_fixed false (strip _)).
  - apply strip_idemp.
  - eapply strip_collapsed, re_sub_spaces_collapsed.
Qed.

(** C9: for every text [t] the cleaned text contains no newline character:
    the substitution has turned every run of whitespace, newlines included,
    into one space before the text is split into lines, so the result,
    page-break markers included, is a single line. *)
Theorem clean_text_single_line t : NL ∉ clean_text t.
Proof.
  rewrite clean_text_unfold.
  eapply collapsed_no_newline, strip_collapsed, re_sub_spaces_collapsed.
Qed.

(** *** What cleaning keeps and what it removes *)

Lemma visible_app t u : visible (t ++ u) = visible t ++ visible u.
Proof. apply List.filter_app. Qed.

Lemma visible_lstrip t : visible (lstrip t) = visible t.
Proof.
  induction t as [|c t IH]; [done|]. simpl.
  destruct (isspace c) eqn:E; simpl; [done|]. by rewrite E.
Qed.

Lemma visible_reverse t : visible (reverse t) = reverse (visible t).
Proof.
  induction t as [|c t IH]; [done|].
  rewrite reverse_cons, visible_app, IH. simpl.
  destruct (isspace c); simpl; [by rewrite app_nil_r|by rewrite reverse_cons].
Qed.

Lemma visible_strip t : visible (strip t) = visible t.
Proof.
  unfold strip, rstrip.
  by rewrite visible_reverse, visible_lstrip, visible_reverse,
    reverse_involutive, visible_lstrip.
Qed.

Lemma visible_re_sub_spaces b t : visible (re_sub_spaces b t) = visible t.
Proof.
  revert b. induction t as [|c t IH]; intros b; [done|]. simpl.
  destruct (isspace c) eqn:E; simpl.
  - destruct b; simpl; apply IH.
  - rewrite E. simpl. by rewrite IH.
Qed.

Lemma visible_nil t : visible t = [] ↔ ∀ c, c ∈ t → isspace c = true.
Proof.
  induction t as [|a t IH]; simpl.
  - split; [|done]. intros _ c Hc. by apply elem_of_nil in Hc.
  - destruct (isspace a) eqn:E; simpl.
    + rewrite IH. split.
      * intros H c [->|Hc]%elem_of_cons; auto.
      * intros H c Hc. apply H. by apply list_elem_of_further.
    + split; [done|]. intros H.
      rewrite (H a) in E by apply list_elem_of_here. done.
Qed.

Lemma strip_starts_clean t : starts_clean (strip t).
Proof. apply rstrip_starts_clean, lstrip_starts_clean. Qed.

Lemma strip_ends_clean t : starts_clean (reverse (strip t)).
Proof.
  unfold strip, rstrip. rewrite reverse_involutive. apply lstrip_starts_clean.
Qed.

(** In a collapsed text that does not end with whitespace, every whitespace
    character is a space and the character after it is not whitespace. *)
Lemma collapsed_spaces b t :
  collapsed b t → starts_clean (reverse t) →
  ∀ i c, t !! i = Some c → isspace c = true →
    c = SP ∧ ∃ d, t !! S i = Some d ∧ isspace d = false.
Proof.
  revert b. induction t as [|c0 rest IH]; intros b Hcol Hend i c Hi Hc; [done|].
  destruct i as [|i]; simpl in Hi.
  - injection Hi as ->. simpl in Hcol. rewrite Hc in Hcol.
    destruct Hcol as (-> & -> & Hrest). split; [done|].
    destruct rest as [|d r]; [done|].
    exists d. split; [done|]. simpl in Hrest.
    destruct (isspace d); [|done]. by destruct Hrest as (_ & ? & _).
  - assert (∃ b', collapsed b' rest) as [b' Hrest].
    { simpl in Hcol. destruct (isspace c0); [destruct Hcol as (_ & _ & ?)|];
        eauto. }
    apply (IH b' Hrest); [|done..].
    rewrite reverse_cons in Hend.
    destruct (reverse rest) as [|x l] eqn:E; [|done].
    apply (f_equal reverse) in E. rewrite reverse_involutive in E.
    by rewrite E in Hi.
Qed.

Lemma length_re_sub_spaces b t : length (re_sub_spaces b t) ≤ length t.
Proof.
  revert b. induction t as [|c t IH]; intros b; [done|]. simpl.
  pose proof (IH true). pose proof (IH false).
  destruct (isspace c); [destruct b|]; simpl; lia.
Qed.

(** X1: cleaning drops and rewrites whitespace only: the characters of the
    cleaned text that are not whitespace are those of the text, in the same
    order. *)
Theorem clean_text_keeps_visible_characters t :
  visible (clean_text t) = visible t.
Proof.
  by rewrite clean_text_unfold, visible_strip, visible_re_sub_spaces.
Qed.

(** X2: the cleaned text does not start with whitespace, and every
    whitespace character in it is a space (U+0020) that is followed by a
    character that is not whitespace: there is no whitespace at either end,
    no tab or other blank, and no two blanks in a row. *)
Theorem clean_text_spacing t :
  starts_clean (clean_text t)
  ∧ ∀ i c, clean_text t !! i = Some c → isspace c = true →
      c = SP ∧ ∃ d, clean_text t !! S i = Some d ∧ isspace d = false.
Proof.
  rewrite clean_text_unfold. split; [apply strip_starts_clean|].
  eapply collapsed_spaces.
  - eapply strip_collapsed, re_sub_spaces_collapsed.
  - apply strip_ends_clean.
Qed.

(** X3: the cleaned text is empty exactly when the text has no character
    other than whitespace (the empty text included). *)
Theorem clean_text_empty_iff_blank t :
  clean_text t = [] ↔ ∀ c, c ∈ t → isspace c = true.
Proof.
  split.
  - intros H. apply visible_nil.
    by rewrite <- (visible_re_sub_spaces false t), <- visible_strip,
      <- clean_text_unfold, H.
  - intros H%visible_nil.
    rewrite <- (visible_re_sub_spaces false t), <- visible_strip,
      <- clean_text_unfold in H.
    pose proof (strip_starts_clean (re_sub_spaces false t)) as Hs.
    rewrite <- clean_text_unfold in Hs.
    destruct (clean_text t) as [|c u]; [done|].
    simpl in Hs, H. by rewrite Hs in H.
Qed.

(** X4: cleaning never makes a text longer. *)
Theorem clean_text_no_longer t : length (clean_text t) ≤ length t.
Proof.
  rewrite clean_text_unfold. unfold strip.
  destruct (lstrip_suffix (re_sub_spaces false t)) as [d1 E1].
  destruct (rstrip_prefix (lstrip (re_sub_spaces false t))) as [d2 E2].
  pose proof (length_re_sub_spaces false t) as H.
  rewrite E1, E2, !length_app in H. lia.
Qed.

End CleanText.

(** ** The pipeline *)

Section Runs.
Context {num float : Type}.
Variable suffix_lower : str → str.
Variable json_loads : str → str + json num.
Variable validate_str : json num → option str.
Variable validate_float : json num → option float.
Variable fault_text : fault num → str.

Lemma bind_run {A B} (m : M A) (k : A → M B) w :
  (m ≫= k) w = match m w with
               | (Return a, w') => k a w'
               | (Raise e, w') => (Raise e, w')
               end.
Proof. reflexivity. Qed.

Lemma posts_snoc t ev :
  posts (t ++ [ev]) = posts t ++ match ev with EvPost r => [r] | _ => [] end.
Proof. unfold posts. rewrite omap_app. by destruct ev. Qed.

Ltac unfold_monad := unfold try_except, try_finally, raise, lift, emit, create, remove,
  path_exists, open_wb, write, image_save, unlink_missing_ok, unlink, fail,
  mbind, M_bind, mret, M_ret in *; simpl in *.

(** [set_solver] for a goal about the disk, which mentions no library function. *)
Ltac disk_solver := clear suffix_lower json_loads; set_solver.

Lemma image_save_run p w :
  image_save p w
  = (Return (), {| disk := {[p]} ∪ disk w; trace := trace w ++ [EvSave p] |}).
Proof. reflexivity. Qed.

Lemma unlink_missing_ok_run p w :
  unlink_missing_ok p w
  = (Return (), {| disk := disk w ∖ {[p]}; trace := trace w ++ [EvUnlink p] |}).
Proof. reflexivity. Qed.

Lemma open_wb_run p w :
  open_wb p w
  = (Return (), {| disk := {[p]} ∪ disk w; trace := trace w ++ [EvOpen p] |}).
Proof. reflexivity. Qed.

Lemma write_run p c w :
  write p c w
  = (Return (), {| disk := disk w;
                   trace := trace w ++ [EvWrite p (N.of_nat (length c))] |}).
Proof. reflexivity. Qed.

Lemma extract_text_from_image_run (O : oracle num) p w :
  extract_text_from_image O p w =
    (match readtext O p with
     | inr results => Return (join [NL] results)
     | inl msg => Raise (Exception (py "Failed to extract text from image: " ++ msg))
     end,
     {| disk := disk w; trace := trace w ++ [EvReadtext p] |}).
Proof.
  unfold extract_text_from_image, reader_readtext. unfold_monad.
  by destruct (readtext O p).
Qed.

Ltac step :=
  repeat first
    [ rewrite bind_run | rewrite image_save_run | rewrite unlink_missing_ok_run
    | rewrite open_wb_run | rewrite write_run
    | rewrite extract_text_from_image_run ];
  cbv beta iota.

Lemma pdf_pages_posts (O : oracle num) pages acc w r w' :
  pdf_pages O pages acc w = (r, w') → posts (trace w') = posts (trace w).
Proof.
  revert acc w. induction pages as [|i pages IH]; intros acc w.
  - intros [= _ <-]. done.
  - cbn [pdf_pages]. step.
    destruct (readtext O (temp_page i)); step.
    + intros [= _ <-]. cbn [trace]. by rewrite !posts_snoc, !app_nil_r.
    + intros H. apply IH in H. rewrite H. cbn [trace].
      by rewrite !posts_snoc, !app_nil_r.
Qed.

(** On the path that returns, a file that is absent stays absent... *)
Lemma pdf_pages_keeps_absent (O : oracle num) pages acc w texts w' p :
  pdf_pages O pages acc w = (Return texts, w') →
  p ∉ disk w → p ∉ disk w'.
Proof.
  revert acc w. induction pages as [|i pages IH]; intros acc w.
  - by intros [= _ <-].
  - cbn [pdf_pages]. step.
    destruct (readtext O (temp_page i)); step; [done|].
    intros H Hp. eapply IH; [exact H|]. cbn [disk]. disk_solver.
Qed.

(** ...and every page image written by the loop has been removed. *)
Lemma pdf_pages_return_removes (O : oracle num) pages acc w texts w' i :
  pdf_pages O pages acc w = (Return texts, w') →
  i ∈ pages → temp_page i ∉ disk w'.
Proof.
  revert acc w. induction pages as [|j pages IH]; intros acc w.
  - intros _ Hi. by apply elem_of_nil in Hi.
  - cbn [pdf_pages]. step.
    destruct (readtext O (temp_page j)); step; [done|].
    intros H [->|Hi]%elem_of_cons; [|by eapply IH].
    eapply pdf_pages_keeps_absent; [exact H|]. cbn [disk]. disk_solver.
Qed.

(** On the path that raises, the image of the page that failed is left. *)
Lemma pdf_pages_raise_leaves_page (O : oracle num) pages acc w e w' :
  pdf_pages O pages acc w = (Raise e, w') →
  ∃ i, i ∈ pages ∧ temp_page i ∈ disk w'.
Proof.
  revert acc w. induction pages as [|i pages IH]; intros acc w.
  - done.
  - cbn [pdf_pages]. step.
    destruct (readtext O (temp_page i)) as [msg|results]; step.
    + intros [= _ <-]. exists i. cbn [disk].
      split; [apply list_elem_of_here|disk_solver].
    + intros (j & Hj & Hdisk)%IH. exists j.
      split; [by apply list_elem_of_further|done].
Qed.

Lemma extract_text_from_pdf_posts (O : oracle num) p w r w' :
  extract_text_from_pdf O p w = (r, w') → posts (trace w') = posts (trace w).
Proof.
  unfold extract_text_from_pdf, try_except. step. unfold emit. cbv beta iota.
  destruct (convert_from_path O p) as [msg|n].
  - intros [= _ <-]. cbn [trace]. by rewrite posts_snoc, app_nil_r.
  - step. unfold mret, M_ret. step.
    match goal with |- context [pdf_pages O ?l ?a ?w0] =>
      destruct (pdf_pages O l a w0) as [[texts|e] w1] eqn:E end;
      apply pdf_pages_posts in E; cbn [trace] in E;
      rewrite posts_snoc, app_nil_r in E; by intros [= _ <-].
Qed.

(** X5: when [extract_text_from_pdf] returns for a PDF rasterized into [n]
    pages, none of the page images [temp_page_0.png], ..., up to page n-1,
    exists any more, not even one that existed before the call. *)
Lemma extract_text_from_pdf_return_removes (O : oracle num) p w text w' n i :
  convert_from_path O p = inr n →
  extract_text_from_pdf O p w = (Return text, w') →
  i < n → temp_page i ∉ disk w'.
Proof.
  intros Hn. unfold extract_text_from_pdf, try_except. step. unfold emit.
  cbv beta iota. rewrite Hn. step. unfold mret, M_ret. step.
  match goal with |- context [pdf_pages O ?l ?a ?w0] =>
    destruct (pdf_pages O l a w0) as [[texts|e] w1] eqn:E end; [|done].
  intros [= _ <-] Hi. eapply pdf_pages_return_removes; [exact E|].
  apply elem_of_seq. lia.
Qed.

(** On the path that raises after the PDF is rasterized, a page image is left. *)
Lemma extract_text_from_pdf_raise_leaves_page (O : oracle num) p w e w' n :
  convert_from_path O p = inr n →
  extract_text_from_pdf O p w = (Raise e, w') →
  ∃ i, i < n ∧ temp_page i ∈ disk w'.
Proof.
  intros Hn. unfold extract_text_from_pdf, try_except. step. unfold emit.
  cbv beta iota. rewrite Hn. step. unfold mret, M_ret. step.
  match goal with |- context [pdf_pages O ?l ?a ?w0] =>
    destruct (pdf_pages O l a w0) as [[texts|e1] w1] eqn:E end; [done|].
  intros [= _ <-].
  apply pdf_pages_raise_leaves_page in E as (i & Hi%elem_of_seq & Hdisk).
  exists i. split; [lia|done].
Qed.

Lemma extract_raw_text_posts (O : oracle num) p w r w' :
  extract_raw_text suffix_lower O p w = (r, w') →
  posts (trace w') = posts (trace w).
Proof.
  unfold extract_raw_text. repeat case_bool_decide;
    first [ apply extract_text_from_pdf_posts | by intros [= _ <-] | idtac ].
  step. intros [= _ <-]. cbn [trace]. by rewrite posts_snoc, app_nil_r.
Qed.

Lemma process_file_inv (O : oracle num) p w r w' :
  process_file suffix_lower O p w = (r, w') →
  posts (trace w') = posts (trace w) ∧
  ∀ text, r = Return text →
    ∃ raw, extract_raw_text suffix_lower O p w = (Return raw, w')
           ∧ text = Clean.clean_text raw.
Proof.
  unfold process_file. rewrite bind_run.
  destruct (extract_raw_text suffix_lower O p w) as [[raw|e] w1] eqn:E;
    apply extract_raw_text_posts in E as Hp; intros [= <- <-]; split; try done.
  intros text [= <-]. eauto.
Qed.


Lemma lift_bind_run {A B} (r : outcome A) (k : A → M B) w :
  (lift r ≫= k) w = match r with
                    | Return a => k a w
                    | Raise e => (Raise e, w)
                    end.
Proof. by destruct r. Qed.

Lemma client_post_run (O : oracle num) r w :
  client_post O r w =
    (match post O r with
     | inr resp => Return resp
     | inl msg => Raise (LibraryError msg)
     end, {| disk := disk w; trace := trace w ++ [EvPost r] |}).
Proof. unfold client_post. step. unfold emit. by destruct (post O r). Qed.

(** The client sends exactly one request and touches nothing else. *)
Lemma extract_invoice_data_world self (O : oracle num) text w r w' :
  extract_invoice_data json_loads validate_str validate_float fault_text
    self O text w = (r, w') →
  w' = {| disk := disk w;
          trace := trace w ++ [EvPost (completion_request self text)] |}.
Proof.
  unfold extract_invoice_data, try_except.
  rewrite bind_run, client_post_run.
  destruct (post O _) as [msg|resp]; [by intros [= _ <-]|].
  cbv beta iota. rewrite lift_bind_run.
  destruct (raise_for_status _ resp) as [[]|e1];
    [|by destruct e1; intros [= _ <-]].
  rewrite lift_bind_run.
  destruct (response_json resp) as [result|e2];
    [|by destruct e2; intros [= _ <-]].
  rewrite lift_bind_run.
  destruct (no_choices _ result) as [[]|e3];
    [by intros [= _ <-]| |by destruct e3; intros [= _ <-]].
  rewrite lift_bind_run.
  destruct (message_content _ result) as [c|e4];
    [|by destruct e4; intros [= _ <-]].
  rewrite lift_bind_run.
  destruct (loads _ _ c) as [d|e5]; [|by destruct e5; intros [= _ <-]].
  rewrite lift_bind_run.
  destruct (InvoiceData_init _ _ _ d) as [inv|e6];
    [|by destruct e6; intros [= _ <-]].
  by intros [= _ <-].
Qed.


(** The [finally] block of [extract_invoice] never raises. *)
Lemma cleanup_run p w :
  (present ← path_exists p;
   if present : bool then unlink fault_text p else mret ()) w
  = (Return (), closed p w).
Proof.
  rewrite bind_run. unfold path_exists, closed, unlink. cbv beta iota.
  case_bool_decide as Hp; [|done].
  rewrite bind_run. unfold emit. cbv beta iota.
  rewrite bind_run. unfold path_exists. cbn [disk].
  rewrite bool_decide_true by done. done.
Qed.

Ltac cleanup :=
  match goal with
  | |- context [(path_exists ?p ≫= ?k) ?w] =>
      let H := fresh in
      assert (H : (path_exists p ≫= k) w = (Return (), closed p w))
        by apply cleanup_run;
      rewrite H; clear H
  end.

(** [extract_invoice], one exit after the other. *)
Lemma extract_invoice_run settings ai (O : oracle num) file w :
  let file_ext := suffix_lower (filename file) in
  let p := upload_path O file_ext in
  extract_invoice suffix_lower json_loads validate_str validate_float fault_text
    settings ai O file w =
  if negb (bool_decide (file_ext ∈ ALLOWED_EXTENSIONS)) then
    (Raise (HTTPException 400
              (py "Unsupported file type: " ++ file_ext
               ++ py ". Allowed types: " ++ join (py ", ") (set_order O))), w)
  else if negb (truthy (CEREBRAS_API_KEY settings)) then
    (Raise (HTTPException 500
              (py "CEREBRAS_API_KEY not found in environment variables")), w)
  else if too_large file then
    (Raise (HTTPException 400 (py "File too large. Maximum size: 10.0MB")),
     closed p {| disk := {[p]} ∪ disk w; trace := trace w ++ [EvOpen p] |})
  else
    match process_file suffix_lower O p (saved p (content file) w) with
    | (Raise e, w1) => (respond (Raise e), closed p w1)
    | (Return text, w1) =>
        if guard text then
          (Return (failure (py "OCR failed to extract meaningful text from the file")),
           closed p w1)
        else
          match extract_invoice_data json_loads validate_str validate_float
                  fault_text ai O text w1 with
          | (Return inv, w2) =>
              (Return {| success := true; data := Some inv; error := None;
                         ocr_text := Some (preview text) |}, closed p w2)
          | (Raise e, w2) => (respond (Raise e), closed p w2)
          end
    end.
Proof.
  intros file_ext p. unfold extract_invoice, try_except. fold file_ext.
  destruct (negb (bool_decide (file_ext ∈ ALLOWED_EXTENSIONS))); [done|].
  unfold validate. destruct (negb (truthy (CEREBRAS_API_KEY settings))); [done|].
  cbn [negb]. cbv beta iota zeta. fold p. unfold try_finally.
  rewrite bind_run, open_wb_run. cbv beta iota.
  destruct (too_large file).
  - rewrite bind_run. unfold raise. cbv beta iota.
    cleanup. done.
  - rewrite bind_run, write_run. cbv beta iota. rewrite bind_run.
    change {| disk := _; trace := _ |} with (saved p (content file) w).
    destruct (process_file suffix_lower O p _) as [[text|e] w1].
    + fold (guard text). destruct (guard text).
      * unfold raise. cbv beta iota. cleanup. done.
      * rewrite bind_run.
        destruct (extract_invoice_data _ _ _ _ ai O text w1) as [[inv|e] w2];
          unfold mret at 1, M_ret at 1; cbv beta iota; cleanup; [done|].
        by destruct e.
    + cbv beta iota. cleanup. by destruct e.
Qed.


Lemma posts_closed p w : posts (trace (closed p w)) = posts (trace w).
Proof.
  unfold closed. case_bool_decide; [|done]. cbn [trace].
  by rewrite posts_snoc, app_nil_r.
Qed.

Lemma posts_saved p c w : posts (trace (saved p c w)) = posts (trace w).
Proof. unfold saved. cbn [trace]. by rewrite !posts_snoc, !app_nil_r. Qed.

Lemma raise_for_status_bad (resp : response num) :
  ¬ (200 ≤ status_code resp ≤ 299)%N →
  raise_for_status fault_text resp
  = Raise (HTTPStatusError (status_code resp) (text resp)
             (fault_text (BadStatus (status_code resp) (text resp)))).
Proof.
  intros H. unfold raise_for_status.
  destruct (N.leb_spec 200 (status_code resp)),
    (N.leb_spec (status_code resp) 299); simpl; try done. lia.
Qed.

Lemma raise_for_status_ok (resp : response num) :
  (200 ≤ status_code resp ≤ 299)%N →
  raise_for_status fault_text resp = Return ().
Proof.
  intros [H1 H2]. unfold raise_for_status.
  by rewrite (proj2 (N.leb_le _ _) H1), (proj2 (N.leb_le _ _) H2).
Qed.

(** A non-2xx answer becomes the exception that words status and body. *)
Lemma extract_invoice_data_bad_status self (O : oracle num) ocr w resp :
  post O (completion_request self ocr) = inr resp →
  ¬ (200 ≤ status_code resp ≤ 299)%N →
  (extract_invoice_data json_loads validate_str validate_float fault_text
     self O ocr w).1
  = Raise (Exception (py "Cerebras API error: " ++ str_of_N (status_code resp)
                      ++ py " - " ++ text resp)).
Proof.
  intros Hpost Hbad. unfold extract_invoice_data, try_except.
  rewrite bind_run, client_post_run, Hpost. cbv beta iota.
  rewrite lift_bind_run, raise_for_status_bad by done. done.
Qed.

Lemma message_content_has_choices (result c : json num) :
  message_content fault_text result = Return c →
  no_choices fault_text result = Return false.
Proof.
  unfold message_content, no_choices.
  destruct result as [| | | |items|items]; try done.
  cbn -[py].
  destruct (dict_get items (py "choices")) as [choices|]; [|done].
  rewrite bool_decide_true by eauto. cbn -[py].
  destruct choices as [| | |s|xs|kvs]; try done; cbn -[py].
  - by destruct s.
  - by destruct xs.
Qed.


Lemma InvoiceData_init_empty :
  InvoiceData_init validate_str validate_float fault_text (JObj [])
  = Return defaults.
Proof. reflexivity. Qed.

Lemma extract_invoice_data_empty_object
    self (O : oracle num) ocr w resp result s :
  post O (completion_request self ocr) = inr resp →
  (200 ≤ status_code resp ≤ 299)%N →
  body_json resp = inr result →
  message_content fault_text result = Return (JStr s) →
  json_loads s = inr (JObj []) →
  (extract_invoice_data json_loads validate_str validate_float fault_text
     self O ocr w).1 = Return defaults.
Proof.
  intros Hpost Hok Hbody Hcontent Hloads.
  unfold extract_invoice_data, try_except.
  rewrite bind_run, client_post_run, Hpost. cbv beta iota.
  rewrite lift_bind_run, raise_for_status_ok by done.
  rewrite lift_bind_run. unfold response_json. rewrite Hbody.
  rewrite lift_bind_run, (message_content_has_choices _ _ Hcontent).
  rewrite lift_bind_run, Hcontent.
  rewrite lift_bind_run. unfold loads. rewrite Hloads.
  rewrite lift_bind_run, InvoiceData_init_empty. done.
Qed.

(** Only the client step sends a request, and it sends one. *)
Lemma extract_invoice_posts settings ai (O : oracle num) file files res w' r :
  extract_invoice suffix_lower json_loads validate_str validate_float fault_text
    settings ai O file (start files) = (res, w') →
  r ∈ posts (trace w') →
  ∃ ocr w1,
    r = completion_request ai ocr ∧
    res = match (extract_invoice_data json_loads validate_str validate_float
                   fault_text ai O ocr w1).1 with
          | Return inv => Return {| success := true; data := Some inv;
                                    error := None;
                                    ocr_text := Some (preview ocr) |}
          | Raise e => respond (Raise e)
          end.
Proof.
  rewrite extract_invoice_run. cbv zeta.
  set (p := upload_path O _).
  destruct (negb _); [intros [= _ <-]; by rewrite elem_of_nil|].
  destruct (negb _); [intros [= _ <-]; by rewrite elem_of_nil|].
  destruct (too_large file).
  { intros [= _ <-]. rewrite posts_closed. by rewrite elem_of_nil. }
  destruct (process_file _ O p _) as [[ocr|e] w1] eqn:Hpf;
    apply process_file_inv in Hpf as [Hposts _];
    rewrite posts_saved in Hposts; cbn in Hposts.
  2: { intros [= _ <-]. rewrite posts_closed, Hposts. by rewrite elem_of_nil. }
  destruct (guard ocr).
  { intros [= _ <-]. rewrite posts_closed, Hposts. by rewrite elem_of_nil. }
  destruct (extract_invoice_data _ _ _ _ ai O ocr w1) as [r2 w2] eqn:Hc.
  pose proof (extract_invoice_data_world _ _ _ _ _ _ Hc) as ->.
  intros Hres Hr. exists ocr, w1. rewrite Hc. cbn [fst].
  assert (posts (trace w') = [completion_request ai ocr]) as Hw'.
  { destruct r2; injection Hres as _ <-; rewrite posts_closed; cbn [trace];
      by rewrite posts_snoc, Hposts. }
  rewrite Hw' in Hr. apply list_elem_of_singleton in Hr as ->.
  split; [done|]. by destruct r2; injection Hres as <- _.
Qed.


Lemma contains_middle (a b c : str) : contains (a ++ b ++ c) b.
Proof. by exists a, c. Qed.

Lemma contains_end (a b : str) : contains (a ++ b) b.
Proof. exists a, []. by rewrite app_nil_r. Qed.

(** C4: in every run in which the completion endpoint is sent a request [r]
    and answers with a status outside 200..299, the operation returns a
    failure envelope ([success] false) whose error message contains the
    status code and the text of the response body; no exception leaves the
    operation. *)
Theorem non_2xx_status_yields_failure_envelope
    settings ai (O : oracle num) file files res w' r resp :
  extract_invoice suffix_lower json_loads validate_str validate_float
    fault_text settings ai O file (start files) = (res, w') →
  r ∈ posts (trace w') →
  post O r = inr resp →
  ¬ (200 ≤ status_code resp ≤ 299)%N →
  ∃ msg,
    res = Return {| success := false; data := None; error := Some msg;
                    ocr_text := None |}
    ∧ contains msg (str_of_N (status_code resp))
    ∧ contains msg (text resp).
Proof.
  intros Hrun Hr Hpost Hbad.
  destruct (extract_invoice_posts _ _ _ _ _ _ _ _ Hrun Hr) as (ocr & w1 & -> & ->).
  rewrite (extract_invoice_data_bad_status _ _ _ _ _ Hpost Hbad).
  eexists. split; [reflexivity|]. cbn [str_exn]. split.
  - apply contains_middle.
  - rewrite (app_assoc (py "Cerebras API error: ")), (app_assoc _ (py " - ")).
    apply contains_end.
Qed.

(** C7: in every run in which the completion endpoint answers with a 2xx
    status and a first message whose content parses to the empty JSON
    object, the operation returns a successful envelope whose record has
    every optional field absent, no line item, and the currency "USD". *)
Theorem empty_object_yields_default_record
    settings ai (O : oracle num) file files res w' r resp result s :
  extract_invoice suffix_lower json_loads validate_str validate_float
    fault_text settings ai O file (start files) = (res, w') →
  r ∈ posts (trace w') →
  post O r = inr resp →
  (200 ≤ status_code resp ≤ 299)%N →
  body_json resp = inr result →
  message_content fault_text result = Return (JStr s) →
  json_loads s = inr (JObj []) →
  ∃ shown,
    res = Return
      {| success := true;
         data := Some {| supplier_name := None; supplier_abn_or_vat := None;
                         supplier_address := None; invoice_number := None;
                         issue_date := None; due_date := None;
                         currency := Some (py "USD"); subtotal := None;
                         tax_amount := None; tax_rate := None;
                         total_amount := None; line_items := [];
                         notes := None |};
         error := None;
         ocr_text := Some shown |}.
Proof.
  intros Hrun Hr Hpost Hok Hbody Hcontent Hloads.
  destruct (extract_invoice_posts _ _ _ _ _ _ _ _ Hrun Hr) as (ocr & w1 & -> & ->).
  rewrite (extract_invoice_data_empty_object _ _ _ _ _ _ _
             Hpost Hok Hbody Hcontent Hloads).
  by eexists.
Qed.

Lemma respond_raise_returns x (e : APIResponse float) :
  respond (Raise x) = Return e → e = failure (str_exn x).
Proof. by destruct x; intros [= <-]. Qed.

(** C10: every envelope the operation returns is exclusive: with [success]
    true the record is present and the error message absent; with [success]
    false the error message is present and both the record and the text
    preview are absent. *)
Theorem envelope_is_exclusive settings ai (O : oracle num) file w e w' :
  extract_invoice suffix_lower json_loads validate_str validate_float
    fault_text settings ai O file w = (Return e, w') →
  (success e = true → is_Some (data e) ∧ error e = None)
  ∧ (success e = false →
     is_Some (error e) ∧ data e = None ∧ ocr_text e = None).
Proof.
  rewrite extract_invoice_run. cbv zeta.
  repeat match goal with
         | |- context [if ?b then _ else _] => destruct b
         | |- context [match ?x with (_, _) => _ end] => destruct x as [[?|?] ?]
         end;
    intros [= Hres _]; try apply respond_raise_returns in Hres; subst e;
    cbn; (split; intros ?; [try discriminate|try discriminate]);
    repeat split; eauto.
Qed.


Lemma length_strip t : length (strip t) ≤ length t.
Proof.
  unfold strip.
  destruct (lstrip_suffix t) as [d1 E1].
  destruct (rstrip_prefix (lstrip t)) as [d2 E2].
  rewrite E1 at 2. rewrite E2 at 2. rewrite !length_app. lia.
Qed.

(** C5: when the upload passes the pre-flight checks and the cleaned
    recognized text (what [process_file] returns) has fewer than 10
    characters, the empty text included, the operation returns the failure
    envelope of insufficient content and no request is sent to the
    completion endpoint. *)
Theorem short_text_is_insufficient_content
    settings ai (O : oracle num) file files ocr w1 :
  let file_ext := suffix_lower (filename file) in
  let p := upload_path O file_ext in
  file_ext ∈ ALLOWED_EXTENSIONS →
  truthy (CEREBRAS_API_KEY settings) = true →
  too_large file = false →
  process_file suffix_lower O p (saved p (content file) (start files))
    = (Return ocr, w1) →
  length ocr < 10 →
  ∃ w',
    extract_invoice suffix_lower json_loads validate_str validate_float
    fault_text settings ai O file (start files)
    = (Return {| success := false; data := None;
                 error := Some (py "OCR failed to extract meaningful text from the file");
                 ocr_text := None |}, w')
    ∧ posts (trace w') = [].
Proof.
  intros file_ext p Hext Hkey Hsize Hpf Hlen.
  rewrite extract_invoice_run. cbv zeta. fold file_ext p.
  rewrite bool_decide_true, Hkey, Hsize, Hpf by done. cbn [negb].
  assert (guard ocr = true) as ->.
  { unfold guard. pose proof (length_strip ocr).
    rewrite (bool_decide_true (length (strip ocr) < 10)) by lia.
    apply orb_true_r. }
  eexists. split; [reflexivity|].
  apply process_file_inv in Hpf as [Hposts _].
  by rewrite posts_closed, Hposts, posts_saved.
Qed.

(** C8, as amended: every successful envelope carries the cleaned recognized
    text, that is [clean_text] of the raw recognized text: in full when it has
    at most 500 characters, and its first 500 characters followed by "..."
    when it is longer. *)
Theorem preview_is_of_cleaned_text settings ai (O : oracle num) file w e w' :
  extract_invoice suffix_lower json_loads validate_str validate_float
    fault_text settings ai O file w = (Return e, w') →
  success e = true →
  let p := upload_path O (suffix_lower (filename file)) in
  ∃ raw w1,
    extract_raw_text suffix_lower O p (saved p (content file) w)
    = (Return raw, w1)
    ∧ let cleaned := Clean.clean_text raw in
      (length cleaned ≤ 500 → ocr_text e = Some cleaned)
      ∧ (500 < length cleaned →
         ocr_text e = Some (take 500 cleaned ++ py "...")).
Proof.
  rewrite extract_invoice_run. cbv zeta.
  set (p := upload_path O _).
  destruct (negb _); [done|]. destruct (negb _); [done|].
  destruct (too_large file); [done|].
  destruct (process_file _ O p _) as [[ocr|e1] w1] eqn:Hpf.
  2: { destruct e1; intros [= <- _]; done. }
  destruct (guard ocr); [by intros [= <- _]|].
  destruct (extract_invoice_data _ _ _ _ ai O ocr w1) as [[inv|e2] w2].
  2: { destruct e2; intros [= <- _]; done. }
  intros [= <- _] _.
  apply process_file_inv in Hpf as [_ Hraw].
  destruct (Hraw ocr eq_refl) as (raw & Hraw' & ->).
  exists raw, w1. split; [done|]. cbn [ocr_text]. unfold preview.
  split; intros;
    [rewrite bool_decide_false by lia|rewrite bool_decide_true by lia]; done.
Qed.

(** What happens to an oversized upload that passes the two earlier checks. *)
Lemma oversized_run settings ai (O : oracle num) file files :
  let file_ext := suffix_lower (filename file) in
  let p := upload_path O file_ext in
  file_ext ∈ ALLOWED_EXTENSIONS →
  truthy (CEREBRAS_API_KEY settings) = true →
  too_large file = true →
  extract_invoice suffix_lower json_loads validate_str validate_float
    fault_text settings ai O file (start files)
  = (Raise (HTTPException 400 (py "File too large. Maximum size: 10.0MB")),
     {| disk := files ∖ {[p]}; trace := [EvOpen p; EvUnlink p] |}).
Proof.
  intros file_ext p Hext Hkey Hsize.
  rewrite extract_invoice_run. cbv zeta. fold file_ext p.
  rewrite bool_decide_true, Hkey, Hsize by done. cbn [negb].
  unfold closed. cbn [disk trace start]. rewrite bool_decide_true by set_solver.
  do 2 f_equal. set_solver.
Qed.

(** C2, as amended: an upload whose payload exceeds [MAX_FILE_SIZE] is
    rejected with an [HTTPException], never an envelope, before the
    recognition engine or the completion endpoint is called and before any
    byte is written.  When the extension is allowed and the credential is
    set, the upload file has been opened before the size check and is removed
    again by the [finally] block, so that it does not remain on disk;
    otherwise nothing is touched. *)
Theorem oversized_upload_is_rejected settings ai (O : oracle num) file files :
  too_large file = true →
  let file_ext := suffix_lower (filename file) in
  let p := upload_path O file_ext in
  ∃ code detail w',
    extract_invoice suffix_lower json_loads validate_str validate_float
    fault_text settings ai O file (start files)
    = (Raise (HTTPException code detail), w')
    ∧ if bool_decide (file_ext ∈ ALLOWED_EXTENSIONS)
         && truthy (CEREBRAS_API_KEY settings)
      then trace w' = [EvOpen p; EvUnlink p] ∧ disk w' = files ∖ {[p]}
      else trace w' = [] ∧ disk w' = files.
Proof.
  intros Hsize file_ext p.
  case_bool_decide as Hext.
  - destruct (truthy (CEREBRAS_API_KEY settings)) eqn:Hkey; cbn [andb].
    + do 3 eexists. split; [by apply oversized_run|]. done.
    + rewrite extract_invoice_run. cbv zeta. fold file_ext.
      rewrite bool_decide_true, Hkey by done. cbn [negb].
      do 3 eexists. split; [reflexivity|]. done.
  - rewrite extract_invoice_run. cbv zeta. fold file_ext.
    rewrite bool_decide_false by done. cbn [negb andb].
    do 3 eexists. split; [reflexivity|]. done.
Qed.

(** *** Recognition: pages, errors and files *)

Lemma pdf_pages_all_read (O : oracle num) (frags : nat → list str) pages acc w :
  (∀ i, i ∈ pages → readtext O (temp_page i) = inr (frags i)) →
  (pdf_pages O pages acc w).1
  = Return (acc ++ ((λ i, join [NL] (frags i)) <$> pages)).
Proof.
  revert acc w. induction pages as [|i pages IH]; intros acc w Hread.
  - cbn. by rewrite app_nil_r.
  - cbn [pdf_pages]. step. rewrite (Hread i) by apply list_elem_of_here. step.
    rewrite IH by (intros j Hj; by apply Hread, list_elem_of_further).
    by rewrite <- app_assoc.
Qed.

(** X6: when every page of an n-page PDF is recognized, the text returned
    is the texts of the pages 0, 1, ..., n-1 in page order, each the
    fragments of its page joined by newlines, with the page-break marker
    between consecutive pages (and the empty text for a PDF without pages). *)
Theorem extract_text_from_pdf_joins_pages
    (O : oracle num) p w n (frags : nat → list str) :
  convert_from_path O p = inr n →
  (∀ i, i < n → readtext O (temp_page i) = inr (frags i)) →
  (extract_text_from_pdf O p w).1
  = Return (join PAGE_BREAK ((λ i, join [NL] (frags i)) <$> seq 0 n)).
Proof.
  intros Hn Hread. unfold extract_text_from_pdf, try_except. step. unfold emit.
  cbv beta iota. rewrite Hn. step. unfold mret, M_ret. step.
  match goal with |- context [pdf_pages O ?l ?a ?w0] =>
    pose proof (pdf_pages_all_read O frags l a w0) as H;
    destruct (pdf_pages O l a w0) as [r w1] end.
  cbn [fst] in H. rewrite H; [done|].
  intros i Hi%elem_of_seq. apply Hread. lia.
Qed.

Lemma extract_text_from_pdf_raise_inv (O : oracle num) p w e w' :
  extract_text_from_pdf O p w = (Raise e, w') →
  ∃ detail, e = Exception (py "Failed to extract text from PDF: " ++ detail).
Proof.
  unfold extract_text_from_pdf, try_except.
  match goal with |- (match ?b with _ => _ end) = _ → _ =>
    destruct b as [[text|e0] w0] end; [done|].
  unfold raise. intros [= <- _]. eauto.
Qed.

(** What [extract_raw_text] raises, by route. *)
Lemma extract_raw_text_raise_inv (O : oracle num) p w e w' :
  extract_raw_text suffix_lower O p w = (Raise e, w') →
  ∃ detail,
    e = Exception (py "Failed to extract text from PDF: " ++ detail)
    ∨ e = Exception (py "Failed to extract text from image: " ++ detail)
    ∨ e = Exception (py "Unsupported file type: " ++ detail).
Proof.
  unfold extract_raw_text. repeat case_bool_decide.
  - intros [detail ->]%extract_text_from_pdf_raise_inv. eauto.
  - rewrite extract_text_from_image_run.
    destruct (readtext O p) as [msg|results]; [|done].
    intros [= <- _]. eauto.
  - unfold raise. intros [= <- _]. eauto.
Qed.

Lemma process_file_raise_inv (O : oracle num) p w e w' :
  process_file suffix_lower O p w = (Raise e, w') →
  extract_raw_text suffix_lower O p w = (Raise e, w').
Proof.
  unfold process_file. rewrite bind_run.
  by destruct (extract_raw_text suffix_lower O p w) as [[raw|e0] w0].
Qed.

(** X7: whatever goes wrong in [process_file], what it raises is an
    [Exception] whose message starts with one of the three wordings of
    ocr.py: the PDF failure, the image failure, or the unsupported file
    type. *)
Theorem process_file_raises_worded_exception (O : oracle num) p w e w' :
  process_file suffix_lower O p w = (Raise e, w') →
  ∃ detail,
    e = Exception (py "Failed to extract text from PDF: " ++ detail)
    ∨ e = Exception (py "Failed to extract text from image: " ++ detail)
    ∨ e = Exception (py "Unsupported file type: " ++ detail).
Proof. intros H%process_file_raise_inv. by eapply extract_raw_text_raise_inv. Qed.

(** X8: [process_file] refuses a path as an unsupported file type, without
    calling the engine or touching a file, exactly when the extension of the
    path is outside [ALLOWED_EXTENSIONS]: the routes of ocr.py and the set of
    config.py agree. *)
Theorem unsupported_file_type_iff_not_allowed (O : oracle num) p w :
  process_file suffix_lower O p w
  = (Raise (Exception (py "Unsupported file type: " ++ suffix_lower p)), w)
  ↔ suffix_lower p ∉ ALLOWED_EXTENSIONS.
Proof.
  unfold ALLOWED_EXTENSIONS. rewrite not_elem_of_cons. split.
  - intros Hrun%process_file_raise_inv. revert Hrun. unfold extract_raw_text.
    repeat case_bool_decide; [| |done].
    + by intros [detail [=]]%extract_text_from_pdf_raise_inv.
    + rewrite extract_text_from_image_run.
      destruct (readtext O p); [|done]. by intros [=].
  - intros [H1 H2]. unfold process_file, extract_raw_text.
    rewrite bind_run, !bool_decide_false by done. done.
Qed.

(** *** The completion client *)



Lemma extract_invoice_data_no_choices self (O : oracle num) ocr w resp items :
  post O (completion_request self ocr) = inr resp →
  (200 ≤ status_code resp ≤ 299)%N →
  body_json resp = inr (JObj items) →
  dict_get items (py "choices") = None
  ∨ dict_get items (py "choices") = Some (JArr []) →
  (extract_invoice_data json_loads validate_str validate_float fault_text
     self O ocr w).1
  = Raise (Exception (py "Failed to extract invoice data: "
                      ++ py "Invalid response from Cerebras API: no choices")).
Proof.
  intros Hpost Hok Hbody Hchoices. unfold extract_invoice_data, try_except.
  rewrite bind_run, client_post_run, Hpost. cbv beta iota.
  rewrite lift_bind_run, raise_for_status_ok by done.
  rewrite lift_bind_run. unfold response_json. rewrite Hbody.
  rewrite lift_bind_run.
  assert (no_choices fault_text (JObj items) = Return true) as ->; [|done].
  unfold no_choices. cbn -[py].
  by destruct Hchoices as [-> | ->]; cbn -[py].
Qed.



Lemma extract_invoice_data_invalid_record
    self (O : oracle num) ocr w resp result s d :
  post O (completion_request self ocr) = inr resp →
  (200 ≤ status_code resp ≤ 299)%N →
  body_json resp = inr result →
  message_content fault_text result = Return (JStr s) →
  json_loads s = inr (JObj d) →
  InvoiceData_validate validate_str validate_float d = None →
  (extract_invoice_data json_loads validate_str validate_float fault_text
     self O ocr w).1
  = Raise (Exception (py "Failed to extract invoice data: "
                      ++ fault_text (Invalid (JObj d)))).
Proof.
  intros Hpost Hok Hbody Hcontent Hloads Hbad.
  unfold extract_invoice_data, try_except.
  rewrite bind_run, client_post_run, Hpost. cbv beta iota.
  rewrite lift_bind_run, raise_for_status_ok by done.
  rewrite lift_bind_run. unfold response_json. rewrite Hbody.
  rewrite lift_bind_run, (message_content_has_choices _ _ Hcontent).
  rewrite lift_bind_run, Hcontent.
  rewrite lift_bind_run. unfold loads. rewrite Hloads.
  rewrite lift_bind_run. unfold InvoiceData_init. by rewrite Hbad.
Qed.

(** *** The operation, failure by failure *)

(** X10: when the endpoint answers the request with a 2xx status and an
    object that has no "choices" key, or an empty list of choices, the
    operation returns the failure envelope whose message is the client's
    own wording wrapped by its last [except] clause. *)
Theorem missing_choices_yields_failure_envelope
    settings ai (O : oracle num) file files res w' r resp items :
  extract_invoice suffix_lower json_loads validate_str validate_float
    fault_text settings ai O file (start files) = (res, w') →
  r ∈ posts (trace w') →
  post O r = inr resp →
  (200 ≤ status_code resp ≤ 299)%N →
  body_json resp = inr (JObj items) →
  dict_get items (py "choices") = None
  ∨ dict_get items (py "choices") = Some (JArr []) →
  res = Return (failure (py "Failed to extract invoice data: Invalid response from Cerebras API: no choices")).
Proof.
  intros Hrun Hr Hpost Hok Hbody Hchoices.
  destruct (extract_invoice_posts _ _ _ _ _ _ _ _ Hrun Hr) as (ocr & w1 & -> & ->).
  by rewrite (extract_invoice_data_no_choices _ _ _ _ _ _ Hpost Hok Hbody Hchoices).
Qed.



(** X13: when the content of the first message parses to a JSON object that
    the [InvoiceData] model rejects, the operation returns the failure
    envelope with the message "Failed to extract invoice data: " followed by
    the text of the validation error. *)
Theorem invalid_record_yields_failure_envelope
    settings ai (O : oracle num) file files res w' r resp result s d :
  extract_invoice suffix_lower json_loads validate_str validate_float
    fault_text settings ai O file (start files) = (res, w') →
  r ∈ posts (trace w') →
  post O r = inr resp →
  (200 ≤ status_code resp ≤ 299)%N →
  body_json resp = inr result →
  message_content fault_text result = Return (JStr s) →
  json_loads s = inr (JObj d) →
  InvoiceData_validate validate_str validate_float d = None →
  res = Return (failure (py "Failed to extract invoice data: "
                         ++ fault_text (Invalid (JObj d)))).
Proof.
  intros Hrun Hr Hpost Hok Hbody Hcontent Hloads Hbad.
  destruct (extract_invoice_posts _ _ _ _ _ _ _ _ Hrun Hr) as (ocr & w1 & -> & ->).
  by rewrite (extract_invoice_data_invalid_record _ _ _ _ _ _ _ _
                Hpost Hok Hbody Hcontent Hloads Hbad).
Qed.

Lemma saved_disk p c w : disk (saved p c w) = {[p]} ∪ disk w.
Proof. reflexivity. Qed.

Lemma closed_disk p w : disk (closed p w) = disk w ∖ {[p]}.
Proof. unfold closed. case_bool_decide; cbn [disk]; disk_solver. Qed.

(** X14: an image upload that the engine cannot read (it raises with
    message [msg]) yields the failure envelope with the message
    "Failed to extract text from image: " followed by [msg]; no request is
    sent to the completion endpoint, and the upload file is gone. *)
Theorem unreadable_image_yields_failure_envelope
    settings ai (O : oracle num) file files msg :
  let file_ext := suffix_lower (filename file) in
  let p := upload_path O file_ext in
  file_ext ∈ ALLOWED_EXTENSIONS →
  truthy (CEREBRAS_API_KEY settings) = true →
  too_large file = false →
  suffix_lower p ∈ [py ".jpg"; py ".jpeg"; py ".png"] →
  readtext O p = inl msg →
  ∃ w',
    extract_invoice suffix_lower json_loads validate_str validate_float
      fault_text settings ai O file (start files)
    = (Return (failure (py "Failed to extract text from image: " ++ msg)), w')
    ∧ posts (trace w') = []
    ∧ disk w' = files ∖ {[p]}.
Proof.
  intros file_ext p Hext Hkey Hsize Himg Hread.
  rewrite extract_invoice_run. cbv zeta. fold file_ext p.
  rewrite bool_decide_true, Hkey, Hsize by done. cbn [negb].
  unfold process_file, extract_raw_text. rewrite bind_run.
  rewrite bool_decide_false, (bool_decide_true _ Himg).
  2: { intros E. rewrite E in Himg.
       repeat (apply elem_of_cons in Himg as [Himg|Himg]; [done|]).
       by apply elem_of_nil in Himg. }
  rewrite extract_text_from_image_run, Hread.
  eexists. split; [reflexivity|].
  rewrite posts_closed, closed_disk. cbn [trace disk saved start].
  split; [by rewrite !posts_snoc|set_solver].
Qed.

(** X15: a PDF upload that cannot be rasterized (the converter raises with
    message [msg]) yields the failure envelope with the message
    "Failed to extract text from PDF: " followed by [msg]; no page image is
    written, the engine is not called, no request is sent, and the upload
    file is gone. *)
Theorem corrupt_pdf_yields_failure_envelope
    settings ai (O : oracle num) file files msg :
  let file_ext := suffix_lower (filename file) in
  let p := upload_path O file_ext in
  file_ext ∈ ALLOWED_EXTENSIONS →
  truthy (CEREBRAS_API_KEY settings) = true →
  too_large file = false →
  suffix_lower p = py ".pdf" →
  convert_from_path O p = inl msg →
  ∃ w',
    extract_invoice suffix_lower json_loads validate_str validate_float
      fault_text settings ai O file (start files)
    = (Return (failure (py "Failed to extract text from PDF: " ++ msg)), w')
    ∧ trace w' = [EvOpen p; EvWrite p (N.of_nat (length (content file)));
                  EvRasterize p; EvUnlink p]
    ∧ disk w' = files ∖ {[p]}.
Proof.
  intros file_ext p Hext Hkey Hsize Hpdf Hconv.
  rewrite extract_invoice_run. cbv zeta. fold file_ext p.
  rewrite bool_decide_true, Hkey, Hsize by done. cbn [negb].
  unfold process_file, extract_raw_text. rewrite bind_run.
  rewrite (bool_decide_true _ Hpdf).
  unfold extract_text_from_pdf, try_except. step. unfold emit. cbv beta iota.
  rewrite Hconv. unfold raise. cbv beta iota.
  eexists. split; [reflexivity|].
  unfold closed. cbn [trace disk saved start].
  rewrite bool_decide_true by set_solver. cbn [trace disk].
  split; [done|set_solver].
Qed.

(** *** The operation: what it raises and what it leaves on disk *)





(** X18: on every exit of a request that passes the extension and the
    credential checks (envelope or rejection, success or failure), the
    upload file does not exist any more. *)
Theorem upload_file_never_remains settings ai (O : oracle num) file w r w' :
  let file_ext := suffix_lower (filename file) in
  file_ext ∈ ALLOWED_EXTENSIONS →
  truthy (CEREBRAS_API_KEY settings) = true →
  extract_invoice suffix_lower json_loads validate_str validate_float
    fault_text settings ai O file w = (r, w') →
  upload_path O file_ext ∉ disk w'.
Proof.
  intros file_ext Hext Hkey.
  rewrite extract_invoice_run. cbv zeta. fold file_ext.
  rewrite bool_decide_true, Hkey by done. cbn [negb].
  repeat match goal with
         | |- context [if ?b then _ else _] => destruct b
         | |- context [match ?x with (_, _) => _ end] => destruct x as [[?|?] ?]
         end;
    intros [= _ <-]; rewrite closed_disk; set_solver.
Qed.

Lemma pdf_pages_frame (O : oracle num) pages acc w r w' q :
  pdf_pages O pages acc w = (r, w') →
  (∀ i, q ≠ temp_page i) → q ∈ disk w' ↔ q ∈ disk w.
Proof.
  intros H Hq. revert acc w H.
  induction pages as [|i pages IH]; intros acc w.
  - by intros [= _ <-].
  - cbn [pdf_pages]. step. specialize (Hq i).
    destruct (readtext O (temp_page i)); step.
    + intros [= _ <-]. cbn [disk]. disk_solver.
    + intros H%IH. rewrite H. cbn [disk]. disk_solver.
Qed.

Lemma extract_raw_text_frame (O : oracle num) p w r w' q :
  extract_raw_text suffix_lower O p w = (r, w') →
  (∀ i, q ≠ temp_page i) → q ∈ disk w' ↔ q ∈ disk w.
Proof.
  intros H Hq. revert H. unfold extract_raw_text. repeat case_bool_decide.
  - unfold extract_text_from_pdf, try_except. step. unfold emit.
    cbv beta iota. destruct (convert_from_path O p) as [msg|n].
    + by intros [= _ <-].
    + step. unfold mret, M_ret. step.
      match goal with |- context [pdf_pages O ?l ?a ?w0] =>
        destruct (pdf_pages O l a w0) as [[texts|e] w1] eqn:E end;
        apply pdf_pages_frame with (q := q) in E; try done;
        by intros [= _ <-].
  - rewrite extract_text_from_image_run. by intros [= _ <-].
  - by intros [= _ <-].
Qed.

Lemma process_file_frame (O : oracle num) p w r w' q :
  process_file suffix_lower O p w = (r, w') →
  (∀ i, q ≠ temp_page i) → q ∈ disk w' ↔ q ∈ disk w.
Proof.
  unfold process_file. rewrite bind_run.
  destruct (extract_raw_text suffix_lower O p w) as [[raw|e] w1] eqn:E;
    intros [= _ <-] Hq; by eapply extract_raw_text_frame.
Qed.

(** X19: the operation creates or deletes no file other than its own upload
    file and the page images [temp_page_<i>.png]: every other path exists
    after the request exactly when it existed before, whatever the outcome. *)
Theorem extract_invoice_frame settings ai (O : oracle num) file w r w' q :
  extract_invoice suffix_lower json_loads validate_str validate_float
    fault_text settings ai O file w = (r, w') →
  q ≠ upload_path O (suffix_lower (filename file)) →
  (∀ i, q ≠ temp_page i) →
  q ∈ disk w' ↔ q ∈ disk w.
Proof.
  rewrite extract_invoice_run. cbv zeta. set (p := upload_path O _).
  intros H Hp Hq. revert H.
  destruct (negb _); [by intros [= _ <-]|].
  destruct (negb _); [by intros [= _ <-]|].
  destruct (too_large file).
  { intros [= _ <-]. rewrite closed_disk. cbn [disk]. set_solver. }
  destruct (process_file _ O p _) as [[ocr|e] w1] eqn:Hpf;
    apply process_file_frame with (q := q) in Hpf; try done;
    rewrite saved_disk in Hpf.
  2: { intros [= _ <-]. rewrite closed_disk. set_solver. }
  destruct (guard ocr).
  { intros [= _ <-]. rewrite closed_disk. set_solver. }
  destruct (extract_invoice_data _ _ _ _ ai O ocr w1) as [r2 w2] eqn:Hc.
  apply extract_invoice_data_world in Hc as ->.
  destruct r2; intros [= _ <-]; rewrite closed_disk; cbn [disk]; set_solver.
Qed.

Lemma strip_clean_text t : strip (Clean.clean_text t) = Clean.clean_text t.
Proof. rewrite clean_text_unfold. apply strip_idemp. Qed.

(** X20: when the upload passes the pre-flight checks and the cleaned
    recognized text has at least 10 characters, the text is handed to the
    completion client: exactly one request is sent, the one built from this
    text, whatever the endpoint then answers. *)
Theorem sufficient_text_reaches_the_client
    settings ai (O : oracle num) file files ocr w1 :
  let file_ext := suffix_lower (filename file) in
  let p := upload_path O file_ext in
  file_ext ∈ ALLOWED_EXTENSIONS →
  truthy (CEREBRAS_API_KEY settings) = true →
  too_large file = false →
  process_file suffix_lower O p (saved p (content file) (start files))
    = (Return ocr, w1) →
  10 ≤ length ocr →
  posts (trace (extract_invoice suffix_lower json_loads validate_str
                  validate_float fault_text settings ai O file
                  (start files)).2)
  = [completion_request ai ocr].
Proof.
  intros file_ext p Hext Hkey Hsize Hpf Hlen.
  rewrite extract_invoice_run. cbv zeta. fold file_ext p.
  rewrite bool_decide_true, Hkey, Hsize, Hpf by done. cbn [negb].
  apply process_file_inv in Hpf as [Hposts Hraw].
  destruct (Hraw ocr eq_refl) as (raw & _ & Hocr).
  assert (guard ocr = false) as ->.
  { unfold guard. rewrite Hocr, strip_clean_text, <- Hocr.
    rewrite bool_decide_false by lia.
    destruct ocr; [simpl in Hlen; lia|done]. }
  destruct (extract_invoice_data _ _ _ _ ai O ocr w1) as [r2 w2] eqn:Hc.
  apply extract_invoice_data_world in Hc as ->.
  assert (posts (trace w1) = []) as Hw1 by by rewrite Hposts, posts_saved.
  destruct r2; cbn [snd]; rewrite posts_closed; cbn [trace];
    by rewrite posts_snoc, Hw1.
Qed.

(** X21: the preview never has more than 503 characters, and its first 500
    characters are the first 500 characters of the text. *)
Theorem preview_bounds t :
  length (preview t) ≤ 503 ∧ take 500 (preview t) = take 500 t.
Proof.
  unfold preview. case_bool_decide as H.
  - split.
    + rewrite length_app, length_take. change (length (py "...")) with 3. lia.
    + rewrite take_app_le by (rewrite length_take; lia).
      rewrite take_take. done.
  - split; [lia|done].
Qed.

(** *** The models *)

Lemma InvoiceData_validate_inv d inv :
  InvoiceData_validate validate_str validate_float d = Some inv →
  optional validate_str (Some (py "USD")) d "currency" = Some (currency inv)
  ∧ line_items_validate validate_str validate_float d = Some (line_items inv).
Proof.
  unfold InvoiceData_validate. intros H.
  repeat (apply bind_Some in H as (? & ? & H)).
  injection H as <-. cbn [currency line_items]. done.
Qed.

(** X22: in every record the model accepts, the currency is "USD" when the
    object has no "currency" key, and absent (not "USD") when the object
    gives "currency" as null. *)
Theorem currency_default_and_null d inv :
  InvoiceData_validate validate_str validate_float d = Some inv →
  (dict_get d (py "currency") = None → currency inv = Some (py "USD"))
  ∧ (dict_get d (py "currency") = Some JNull → currency inv = None).
Proof.
  intros [H _]%InvoiceData_validate_inv. unfold optional in H.
  split; intros E; rewrite E in H; by injection H.
Qed.

(** X23: in every record the model accepts, the line items are the items
    of the "line_items" array, each validated as a [LineItem], in the same
    order and number; they are the empty list when the key is missing; and
    the model accepts no object whose "line_items" is null or anything else
    than an array. *)
Theorem line_items_are_validated_in_order d inv :
  InvoiceData_validate validate_str validate_float d = Some inv →
  match dict_get d (py "line_items") with
  | None => line_items inv = []
  | Some (JArr items) =>
      Forall2 (λ v item,
                 LineItem_validate validate_str validate_float v = Some item)
        items (line_items inv)
  | Some _ => False
  end.
Proof.
  intros [_ H]%InvoiceData_validate_inv. unfold line_items_validate in H.
  destruct (dict_get d (py "line_items")) as [[| | | |items|]|]; try done.
  - by apply mapM_Some in H.
  - by injection H.
Qed.

Lemma dict_get_skip (d1 d2 : list (str * json num)) k v name :
  k ≠ name →
  dict_get (d1 ++ (k, v) :: d2) name = dict_get (d1 ++ d2) name.
Proof.
  intros Hk. induction d1 as [|[k' v'] d1 IH]; simpl.
  - by rewrite bool_decide_false.
  - by rewrite IH.
Qed.

(** X24: a key that is not the name of a field of [InvoiceData] is ignored:
    adding it to the object, anywhere and with any value, changes neither
    whether the object is accepted nor the record built from it. *)
Theorem unknown_keys_are_ignored d1 k v d2 :
  k ∉ py <$> InvoiceData_fields →
  InvoiceData_validate validate_str validate_float (d1 ++ (k, v) :: d2)
  = InvoiceData_validate validate_str validate_float (d1 ++ d2).
Proof.
  intros Hk.
  assert (∀ name, name ∈ InvoiceData_fields → k ≠ py name) as Hne.
  { intros name Hname ->. apply Hk. by apply list_elem_of_fmap_2. }
  unfold InvoiceData_validate, line_items_validate, optional.
  rewrite !dict_get_skip
    by (apply Hne; unfold InvoiceData_fields;
        repeat first [apply list_elem_of_here | apply list_elem_of_further]).
  done.
Qed.

(** *** Startup and health *)


End Runs.

(** ** Runs on concrete inputs *)

(** C1, where the code departs from it: a one-page PDF whose page cannot be
    recognized.  [extract_text_from_pdf] raises and the page image
    [temp_page_0.png] that it saved is still on disk: the loop reaches its
    [unlink] only when [extract_text_from_image] returns. *)
Theorem failed_page_recognition_leaves_page_image :
  extract_text_from_pdf Demo.unreadable_page (py "scan.pdf") (start ∅)
  = (Raise (Exception
              (py "Failed to extract text from PDF: "
               ++ py "Failed to extract text from image: unreadable")),
     {| disk := {[ py "temp_page_0.png" ]};
        trace := [EvRasterize (py "scan.pdf");
                  EvSave (py "temp_page_0.png");
                  EvReadtext (py "temp_page_0.png")] |}).
Proof. vm_compute. reflexivity. Qed.

(** C3, where the code departs from it: with an empty credential the health
    operation reports "degraded", but the startup of the service raises:
    [lifespan] constructs the client, whose constructor raises [ValueError]. *)
Theorem missing_credential_fails_startup :
  let settings := {| CEREBRAS_API_KEY := [] |} in
  lifespan settings = Raise (ValueError (py "CEREBRAS_API_KEY is not set"))
  ∧ status (health_check settings) = py "degraded".
Proof. split; reflexivity. Qed.

Lemma too_large_oversized_pdf : too_large Demo.oversized_pdf = true.
Proof.
  unfold too_large, Demo.oversized_pdf. cbn [content].
  rewrite length_replicate, N2Nat.id. apply bool_decide_eq_true. lia.
Qed.

(** C2 as stated fails: for this oversized upload the temporary upload file
    is created, by the [open] that precedes the size check. *)
Lemma oversized_upload_creates_the_file :
  let p := py "uploads/0b0e4c3a.pdf" in
  too_large Demo.oversized_pdf = true
  ∧ EvOpen p ∈ trace (Demo.run Demo.blank_page Demo.oversized_pdf ∅).2.
Proof.
  split; [apply too_large_oversized_pdf|].
  unfold Demo.run.
  rewrite oversized_run.
  - cbn [snd trace]. apply list_elem_of_here.
  - change (Demo.suffix_lower (py "scan.pdf") ∈ ALLOWED_EXTENSIONS).
    vm_compute. apply list_elem_of_here.
  - reflexivity.
  - apply too_large_oversized_pdf.
Qed.

(** The theorems above at concrete uploads. *)

Lemma envelope_is_exclusive_witness :
  let e : APIResponse N :=
    {| success := false; data := None;
       error := Some (py "Cerebras API error: 503 - upstream down");
       ocr_text := None |} in
  (Demo.run Demo.service_unavailable Demo.invoice_png ∅).1 = Return e
  ∧ (success e = true → is_Some (data e) ∧ error e = None)
  ∧ (success e = false →
     is_Some (error e) ∧ data e = None ∧ ocr_text e = None).
Proof.
  intros e. split; [vm_compute; reflexivity|].
  apply (envelope_is_exclusive Demo.suffix_lower Demo.json_loads
           Demo.validate_str Demo.validate_float Demo.fault_text
           Demo.settings Demo.client Demo.service_unavailable Demo.invoice_png
           (start ∅) e
           (Demo.run Demo.service_unavailable Demo.invoice_png ∅).2).
  vm_compute. reflexivity.
Defined.

Lemma non_2xx_status_yields_failure_envelope_witness :
  ∃ msg,
    (Demo.run Demo.service_unavailable Demo.invoice_png ∅).1
    = Return {| success := false; data := None; error := Some msg;
                ocr_text := None |}
    ∧ contains msg (py "503")
    ∧ contains msg (py "upstream down").
Proof.
  apply (non_2xx_status_yields_failure_envelope Demo.suffix_lower
           Demo.json_loads Demo.validate_str Demo.validate_float
           Demo.fault_text Demo.settings Demo.client Demo.service_unavailable
           Demo.invoice_png ∅ _
           (Demo.run Demo.service_unavailable Demo.invoice_png ∅).2
           (completion_request Demo.client (py "INVOICE 123 Total due 110"))
           {| status_code := 503; text := py "upstream down";
              body_json := inl (py "Expecting value") |}).
  - apply surjective_pairing.
  - vm_compute. apply list_elem_of_here.
  - reflexivity.
  - cbn. lia.
Defined.

Lemma empty_object_yields_default_record_witness :
  ∃ shown,
    (Demo.run Demo.ok_empty_object Demo.invoice_png ∅).1
    = Return
        {| success := true;
           data := Some {| supplier_name := None; supplier_abn_or_vat := None;
                           supplier_address := None; invoice_number := None;
                           issue_date := None; due_date := None;
                           currency := Some (py "USD"); subtotal := None;
                           tax_amount := None; tax_rate := None;
                           total_amount := None; line_items := [];
                           notes := None |};
           error := None;
           ocr_text := Some shown |}.
Proof.
  apply (empty_object_yields_default_record Demo.suffix_lower
           Demo.json_loads Demo.validate_str Demo.validate_float
           Demo.fault_text Demo.settings Demo.client Demo.ok_empty_object
           Demo.invoice_png ∅ _
           (Demo.run Demo.ok_empty_object Demo.invoice_png ∅).2
           (completion_request Demo.client (py "INVOICE 123 Total due 110"))
           {| status_code := 200; text := [];
              body_json := inr (Demo.completion (py "{}")) |}
           (Demo.completion (py "{}")) (py "{}")).
  - apply surjective_pairing.
  - vm_compute. apply list_elem_of_here.
  - reflexivity.
  - cbn. lia.
  - reflexivity.
  - vm_compute. reflexivity.
  - reflexivity.
Defined.

Lemma short_text_is_insufficient_content_witness :
  ∃ w',
    Demo.run Demo.blank_page Demo.invoice_png ∅
    = (Return {| success := false; data := None;
                 error := Some (py "OCR failed to extract meaningful text from the file");
                 ocr_text := None |}, w')
    ∧ posts (trace w') = [].
Proof.
  apply (short_text_is_insufficient_content Demo.suffix_lower
           Demo.json_loads Demo.validate_str Demo.validate_float
           Demo.fault_text Demo.settings Demo.client Demo.blank_page
           Demo.invoice_png ∅ (py "7")
           (process_file Demo.suffix_lower Demo.blank_page
              (py "uploads/0b0e4c3a.png")
              (saved (py "uploads/0b0e4c3a.png") [137; 80; 78; 71]%N
                 (start ∅))).2).
  - vm_compute. do 3 apply list_elem_of_further. apply list_elem_of_here.
  - reflexivity.
  - reflexivity.
  - vm_compute. reflexivity.
  - vm_compute. lia.
Defined.

Lemma preview_is_of_cleaned_text_witness :
  let p := py "uploads/0b0e4c3a.png" in
  let shown := py "INVOICE 123 Total due 110" in
  ∃ raw w1,
    extract_raw_text Demo.suffix_lower Demo.ok_empty_object p
      (saved p [137; 80; 78; 71]%N (start ∅)) = (Return raw, w1)
    ∧ let cleaned := Clean.clean_text raw in
      (length cleaned ≤ 500 → Some shown = Some cleaned)
      ∧ (500 < length cleaned →
         Some shown = Some (take 500 cleaned ++ py "...")).
Proof.
  intros p shown.
  apply (preview_is_of_cleaned_text Demo.suffix_lower
           Demo.json_loads Demo.validate_str Demo.validate_float
           Demo.fault_text Demo.settings Demo.client Demo.ok_empty_object
           Demo.invoice_png (start ∅)
           {| success := true; data := Some (defaults (float := N));
              error := None; ocr_text := Some shown |}
           (Demo.run Demo.ok_empty_object Demo.invoice_png ∅).2).
  - vm_compute. reflexivity.
  - reflexivity.
Defined.

Lemma oversized_upload_is_rejected_witness :
  let p := py "uploads/0b0e4c3a.pdf" in
  too_large Demo.oversized_pdf = true
  ∧ ∃ code detail w',
      Demo.run Demo.blank_page Demo.oversized_pdf ∅
      = (Raise (HTTPException code detail), w')
      ∧ trace w' = [EvOpen p; EvUnlink p] ∧ disk w' = ∅ ∖ {[p]}.
Proof.
  assert (too_large Demo.oversized_pdf = true) as Hbig.
  { unfold too_large, Demo.oversized_pdf. cbn [content].
    rewrite length_replicate, N2Nat.id. apply bool_decide_eq_true. lia. }
  split; [exact Hbig|].
  exact (oversized_upload_is_rejected Demo.suffix_lower
           Demo.json_loads Demo.validate_str Demo.validate_float
           Demo.fault_text Demo.settings Demo.client Demo.blank_page
           Demo.oversized_pdf ∅ Hbig).
Defined.

(** C8 as stated fails: the raw recognized text of this upload has two lines
    and fewer than 500 characters, and the successful envelope carries the
    cleaned, one-line text instead of it. *)
Lemma preview_is_not_the_raw_text :
  let p := py "uploads/0b0e4c3a.png" in
  let raw := py "INVOICE 123" ++ [NL] ++ py "Total due 110" in
  (extract_raw_text Demo.suffix_lower Demo.ok_empty_object p
     (saved p [137; 80; 78; 71]%N (start ∅))).1 = Return raw
  ∧ length raw ≤ 500
  ∧ (Demo.run Demo.ok_empty_object Demo.invoice_png ∅).1
    = Return {| success := true; data := Some defaults; error := None;
                ocr_text := Some (py "INVOICE 123 Total due 110") |}
  ∧ py "INVOICE 123 Total due 110" ≠ raw.
Proof.
  intros p raw. repeat split; try (vm_compute; reflexivity).
  - vm_compute. lia.
  - vm_compute. discriminate.
Qed.

(** The further properties at concrete inputs. *)

Lemma extract_text_from_pdf_return_removes_witness :
  temp_page 0
  ∉ disk (extract_text_from_pdf Demo.ok_empty_object (py "scan.pdf")
            (start {[temp_page 0]})).2.
Proof.
  apply (extract_text_from_pdf_return_removes Demo.ok_empty_object
           (py "scan.pdf") (start {[temp_page 0]})
           (py "INVOICE 123" ++ [NL] ++ py "Total due 110") _ 1 0).
  - reflexivity.
  - apply injective_projections; [vm_compute; reflexivity|reflexivity].
  - lia.
Defined.

Lemma extract_text_from_pdf_joins_pages_witness :
  (extract_text_from_pdf Demo.two_pages (py "scan.pdf") (start ∅)).1
  = Return (py "INVOICE 123" ++ PAGE_BREAK ++ py "Total due 110").
Proof.
  apply (extract_text_from_pdf_joins_pages Demo.two_pages (py "scan.pdf")
           (start ∅) 2
           (λ i, match i with
                 | 0 => [py "INVOICE 123"]
                 | _ => [py "Total due 110"]
                 end)).
  - reflexivity.
  - intros [|[|i]] Hi; [vm_compute; reflexivity..|lia].
Defined.

Lemma process_file_raises_worded_exception_witness :
  let e := Exception (py "Failed to extract text from image: unreadable") in
  (process_file Demo.suffix_lower Demo.unreadable_page
     (py "uploads/0b0e4c3a.png") (start ∅)).1 = Raise e
  ∧ ∃ detail,
      e = Exception (py "Failed to extract text from PDF: " ++ detail)
      ∨ e = Exception (py "Failed to extract text from image: " ++ detail)
      ∨ e = Exception (py "Unsupported file type: " ++ detail).
Proof.
  intros e. split; [vm_compute; reflexivity|].
  apply (process_file_raises_worded_exception Demo.suffix_lower
           Demo.unreadable_page (py "uploads/0b0e4c3a.png") (start ∅) e
           (process_file Demo.suffix_lower Demo.unreadable_page
              (py "uploads/0b0e4c3a.png") (start ∅)).2).
  apply injective_projections; [vm_compute; reflexivity|reflexivity].
Defined.


Lemma missing_choices_yields_failure_envelope_witness :
  (Demo.run Demo.no_choices_answer Demo.invoice_png ∅).1
  = Return (failure (py "Failed to extract invoice data: Invalid response from Cerebras API: no choices")).
Proof.
  apply (missing_choices_yields_failure_envelope Demo.suffix_lower
           Demo.json_loads Demo.validate_str Demo.validate_float
           Demo.fault_text Demo.settings Demo.client Demo.no_choices_answer
           Demo.invoice_png ∅ _
           (Demo.run Demo.no_choices_answer Demo.invoice_png ∅).2
           (completion_request Demo.client (py "INVOICE 123 Total due 110"))
           {| status_code := 200; text := py "{}"; body_json := inr (JObj []) |}
           []).
  - apply surjective_pairing.
  - vm_compute. apply list_elem_of_here.
  - reflexivity.
  - cbn. lia.
  - reflexivity.
  - by left.
Defined.



Lemma invalid_record_yields_failure_envelope_witness :
  (extract_invoice Demo.suffix_lower Demo.json_loads_items Demo.validate_str
     Demo.validate_float Demo.fault_text (float := N) Demo.settings
     Demo.client Demo.null_line_items Demo.invoice_png (start ∅)).1
  = Return (failure (py "Failed to extract invoice data: " ++ py "fault")).
Proof.
  apply (invalid_record_yields_failure_envelope Demo.suffix_lower
           Demo.json_loads_items Demo.validate_str Demo.validate_float
           Demo.fault_text Demo.settings Demo.client Demo.null_line_items
           Demo.invoice_png ∅ _
           (extract_invoice Demo.suffix_lower Demo.json_loads_items
              Demo.validate_str Demo.validate_float Demo.fault_text
              (float := N) Demo.settings Demo.client Demo.null_line_items
              Demo.invoice_png (start ∅)).2
           (completion_request Demo.client (py "INVOICE 123 Total due 110"))
           {| status_code := 200; text := [];
              body_json :=
                inr (Demo.completion (pyq "{'line_items': null}")) |}
           (Demo.completion (pyq "{'line_items': null}"))
           (pyq "{'line_items': null}")
           [(py "line_items", JNull)]).
  - apply surjective_pairing.
  - vm_compute. apply list_elem_of_here.
  - reflexivity.
  - cbn. lia.
  - reflexivity.
  - vm_compute. reflexivity.
  - vm_compute. reflexivity.
  - vm_compute. reflexivity.
Defined.

Lemma unreadable_image_yields_failure_envelope_witness :
  ∃ w',
    Demo.run Demo.unreadable_page Demo.invoice_png ∅
    = (Return (failure (py "Failed to extract text from image: "
                        ++ py "unreadable")), w')
    ∧ posts (trace w') = []
    ∧ disk w' = ∅ ∖ {[py "uploads/0b0e4c3a.png"]}.
Proof.
  apply (unreadable_image_yields_failure_envelope Demo.suffix_lower
           Demo.json_loads Demo.validate_str Demo.validate_float
           Demo.fault_text Demo.settings Demo.client Demo.unreadable_page
           Demo.invoice_png ∅ (py "unreadable")).
  - vm_compute. do 3 apply list_elem_of_further. apply list_elem_of_here.
  - reflexivity.
  - reflexivity.
  - vm_compute. do 2 apply list_elem_of_further. apply list_elem_of_here.
  - reflexivity.
Defined.

Lemma corrupt_pdf_yields_failure_envelope_witness :
  let p := py "uploads/0b0e4c3a.pdf" in
  ∃ w',
    Demo.run Demo.corrupt_pdf Demo.scan_pdf ∅
    = (Return (failure (py "Failed to extract text from PDF: "
                        ++ py "Unable to get page count.")), w')
    ∧ trace w' = [EvOpen p; EvWrite p 4; EvRasterize p; EvUnlink p]
    ∧ disk w' = ∅ ∖ {[p]}.
Proof.
  apply (corrupt_pdf_yields_failure_envelope Demo.suffix_lower
           Demo.json_loads Demo.validate_str Demo.validate_float
           Demo.fault_text Demo.settings Demo.client Demo.corrupt_pdf
           Demo.scan_pdf ∅ (py "Unable to get page count.")).
  - vm_compute. apply list_elem_of_here.
  - reflexivity.
  - reflexivity.
  - vm_compute. reflexivity.
  - reflexivity.
Defined.



Lemma upload_file_never_remains_witness :
  py "uploads/0b0e4c3a.png"
  ∉ disk (Demo.run Demo.ok_empty_object Demo.invoice_png
            {[py "uploads/0b0e4c3a.png"]}).2.
Proof.
  apply (upload_file_never_remains Demo.suffix_lower Demo.json_loads
           Demo.validate_str Demo.validate_float Demo.fault_text
           Demo.settings Demo.client Demo.ok_empty_object Demo.invoice_png
           (start {[py "uploads/0b0e4c3a.png"]})
           (Demo.run Demo.ok_empty_object Demo.invoice_png
              {[py "uploads/0b0e4c3a.png"]}).1).
  - vm_compute. do 3 apply list_elem_of_further. apply list_elem_of_here.
  - reflexivity.
  - apply surjective_pairing.
Defined.

Lemma extract_invoice_frame_witness :
  let q := py "uploads/earlier.png" in
  q ∈ disk (Demo.run Demo.ok_empty_object Demo.invoice_png {[q]}).2
  ↔ q ∈ disk (start {[q]}).
Proof.
  intros q.
  apply (extract_invoice_frame Demo.suffix_lower Demo.json_loads
           Demo.validate_str Demo.validate_float Demo.fault_text
           Demo.settings Demo.client Demo.ok_empty_object Demo.invoice_png
           (start {[q]})
           (Demo.run Demo.ok_empty_object Demo.invoice_png {[q]}).1).
  - apply surjective_pairing.
  - vm_compute. discriminate.
  - intros i. vm_compute. discriminate.
Defined.

Lemma sufficient_text_reaches_the_client_witness :
  posts (trace (Demo.run Demo.ok_empty_object Demo.invoice_png ∅).2)
  = [completion_request Demo.client (py "INVOICE 123 Total due 110")].
Proof.
  apply (sufficient_text_reaches_the_client Demo.suffix_lower
           Demo.json_loads Demo.validate_str Demo.validate_float
           Demo.fault_text Demo.settings Demo.client Demo.ok_empty_object
           Demo.invoice_png ∅ (py "INVOICE 123 Total due 110")
           (process_file Demo.suffix_lower Demo.ok_empty_object
              (py "uploads/0b0e4c3a.png")
              (saved (py "uploads/0b0e4c3a.png") [137; 80; 78; 71]%N
                 (start ∅))).2).
  - vm_compute. do 3 apply list_elem_of_further. apply list_elem_of_here.
  - reflexivity.
  - reflexivity.
  - vm_compute. reflexivity.
  - vm_compute. lia.
Defined.

Lemma currency_default_and_null_witness :
  let d : list (str * json N) := [(py "currency", JNull)] in
  let inv : InvoiceData N :=
    {| supplier_name := None; supplier_abn_or_vat := None;
       supplier_address := None; invoice_number := None; issue_date := None;
       due_date := None; currency := None; subtotal := None;
       tax_amount := None; tax_rate := None; total_amount := None;
       line_items := []; notes := None |} in
  (dict_get d (py "currency") = None → currency inv = Some (py "USD"))
  ∧ (dict_get d (py "currency") = Some JNull → currency inv = None).
Proof.
  intros d inv.
  apply (currency_default_and_null Demo.validate_str Demo.validate_float d inv).
  vm_compute. reflexivity.
Defined.

Lemma line_items_are_validated_in_order_witness :
  let item : list (str * json N) := [(py "quantity", JNum 2%N)] in
  Forall2 (λ v li, LineItem_validate Demo.validate_str Demo.validate_float v
                   = Some li)
    [JObj item; JObj []]
    [{| description := None; quantity := Some 2%N; unit_price := None;
        line_total := None |};
     {| description := None; quantity := None; unit_price := None;
        line_total := None |}].
Proof.
  intros item.
  apply (line_items_are_validated_in_order Demo.validate_str
           Demo.validate_float
           [(py "line_items", JArr [JObj item; JObj []])]
           {| supplier_name := None; supplier_abn_or_vat := None;
              supplier_address := None; invoice_number := None;
              issue_date := None; due_date := None;
              currency := Some (py "USD"); subtotal := None;
              tax_amount := None; tax_rate := None; total_amount := None;
              line_items :=
                [{| description := None; quantity := Some 2%N;
                    unit_price := None; line_total := None |};
                 {| description := None; quantity := None;
                    unit_price := None; line_total := None |}];
              notes := None |}).
  vm_compute. reflexivity.
Defined.

Lemma unknown_keys_are_ignored_witness :
  InvoiceData_validate Demo.validate_str Demo.validate_float
    ([(py "currency", JStr (py "AUD"))]
     ++ (py "confidence", JNum 97%N) :: [(py "notes", JNull)])
  = InvoiceData_validate Demo.validate_str Demo.validate_float
      ([(py "currency", JStr (py "AUD"))] ++ [(py "notes", JNull)]).
Proof.
  apply (unknown_keys_are_ignored Demo.validate_str Demo.validate_float).
  apply (bool_decide_unpack _). vm_compute. reflexivity.
Defined.
